(** * Parking fee calculation: a shallow embedding of [parking_rate.py]

    The script computes a parking fee from a check-in and a check-out
    [datetime].  Three functions make up the program:
    - [get_duration] splits the stay into an overall duration, an optional
      first-day / remaining pair and the counts of elapsed days;
    - [calculate_fee] prices the split with the weekday / weekend rates;
    - [get_parking_fee] validates the range, calls both and formats a label.

    The first part of the file models the fragment of Python's [datetime]
    and [calendar] modules that the script calls (proleptic Gregorian
    ordinals, [timedelta] normalisation, [weekday], [day_name]); the second
    part embeds the three functions; the third part states and proves the
    properties. *)

From Stdlib Require Import ZArith QArith Lia Lqa List Bool DecimalString.
From stdpp Require Import gmap strings.

Local Open Scope Z_scope.

(** ** Exceptions and fallible computations *)

(** The exceptions that the modelled code can raise.  [TypeError] is what
    Python 3 raises for [raise "some string"] ("exceptions must derive from
    BaseException"). *)
Inductive exn : Type :=
  | TypeError
  | ValueError
  | OverflowError
  | KeyError (key : string).

Definition result (A : Type) : Type := (exn + A)%type.

Definition ret {A : Type} (a : A) : result A := inr a.
Definition raise {A : Type} (e : exn) : result A := inl e.

Definition bind {A B : Type} (m : result A) (k : A -> result B) : result B :=
  match m with
  | inl e => inl e
  | inr a => k a
  end.

Notation "x <- m ;; k" := (bind m (fun x => k))
  (at level 20, m at level 99, k at level 200, only parsing).
Notation "' pat <- m ;; k" := (bind m (fun x => match x with pat => k end))
  (at level 20, pat pattern, m at level 99, k at level 200, only parsing).

(** ** The proleptic Gregorian calendar of [datetime] *)

Module Calendar.

Definition MINYEAR : Z := 1.
Definition MAXYEAR : Z := 9999.
Definition MAXORDINAL : Z := 3652059.

Definition DAYS_IN_MONTH : list Z :=
  [-1; 31; 28; 31; 30; 31; 30; 31; 31; 30; 31; 30; 31].

Definition DAYS_BEFORE_MONTH : list Z :=
  [-1; 0; 31; 59; 90; 120; 151; 181; 212; 243; 273; 304; 334].

(** Python list indexing restricted to the non-negative indices used here. *)
Definition index (l : list Z) (i : Z) : Z := nth (Z.to_nat i) l 0.

Definition b2z (b : bool) : Z := if b then 1 else 0.

Definition is_leap (year : Z) : bool :=
  (year mod 4 =? 0) && (negb (year mod 100 =? 0) || (year mod 400 =? 0)).

Definition days_before_year (year : Z) : Z :=
  let y := year - 1 in
  y * 365 + y / 4 - y / 100 + y / 400.

Definition days_in_month (year month : Z) : Z :=
  if (month =? 2) && is_leap year then 29 else index DAYS_IN_MONTH month.

Definition days_before_month (year month : Z) : Z :=
  index DAYS_BEFORE_MONTH month + b2z ((month >? 2) && is_leap year).

Definition ymd2ord (year month day : Z) : Z :=
  days_before_year year + days_before_month year month + day.

Definition DI400Y : Z := 146097.
Definition DI100Y : Z := 36524.
Definition DI4Y : Z := 1461.

Definition ord2ymd (n : Z) : Z * Z * Z :=
  let n := n - 1 in
  let n400 := n / DI400Y in
  let n := n mod DI400Y in
  let year := n400 * 400 + 1 in
  let n100 := n / DI100Y in
  let n := n mod DI100Y in
  let n4 := n / DI4Y in
  let n := n mod DI4Y in
  let n1 := n / 365 in
  let n := n mod 365 in
  let year := year + (n100 * 100 + n4 * 4 + n1) in
  if (n1 =? 4) || (n100 =? 4) then (year - 1, 12, 31)
  else
    let leapyear := (n1 =? 3) && (negb (n4 =? 24) || (n100 =? 3)) in
    let month := Z.shiftr (n + 50) 5 in
    let preceding :=
      index DAYS_BEFORE_MONTH month + b2z ((month >? 2) && leapyear) in
    let '(month, preceding) :=
      if preceding >? n
      then (month - 1,
            preceding
            - (index DAYS_IN_MONTH (month - 1)
               + b2z ((month - 1 =? 2) && leapyear)))
      else (month, preceding) in
    (year, month, n - preceding + 1).

(** [calendar.day_name], indexed by [weekday()] (Monday is 0). *)
Definition day_name (w : Z) : string :=
  nth (Z.to_nat w)
    ["Monday"; "Tuesday"; "Wednesday"; "Thursday"; "Friday"; "Saturday";
     "Sunday"]%string ""%string.

End Calendar.

(** ** [datetime.timedelta] *)

Module Timedelta.

Record t : Type := mk { days : Z; seconds : Z; microseconds : Z }.

(** [timedelta(days, seconds, microseconds)] for integer arguments: the
    constructor carries microseconds into seconds and seconds into days, so
    that [0 <= seconds < 86400] and [0 <= microseconds < 1000000].  (Its
    limit of 999999999 days is out of reach of differences of dates.) *)
Definition new (d s us : Z) : t :=
  let s := s + us / 1000000 in
  let us := us mod 1000000 in
  let d := d + s / 86400 in
  let s := s mod 86400 in
  mk d s us.

Definition add (a b : t) : t :=
  new (days a + days b) (seconds a + seconds b)
      (microseconds a + microseconds b).

End Timedelta.

(** ** [datetime.datetime] (naive, without time zone) *)

Module Datetime.

Import Calendar.

Record t : Type := mk {
  year : Z; month : Z; day : Z;
  hour : Z; minute : Z; second : Z; microsecond : Z
}.

(** The range checks of the constructor. *)
Definition check_fields (d : t) : bool :=
  (MINYEAR <=? year d) && (year d <=? MAXYEAR)
  && (1 <=? month d) && (month d <=? 12)
  && (1 <=? day d) && (day d <=? days_in_month (year d) (month d))
  && (0 <=? hour d) && (hour d <=? 23)
  && (0 <=? minute d) && (minute d <=? 59)
  && (0 <=? second d) && (second d <=? 59)
  && (0 <=? microsecond d) && (microsecond d <=? 999999).

(** Every Python [datetime] object satisfies the checks. *)
Definition valid (d : t) : Prop := check_fields d = true.

(** [datetime(year, month, day, hour, minute, second, microsecond)]. *)
Definition new (y m d h mi s us : Z) : result t :=
  let r := mk y m d h mi s us in
  if check_fields r then ret r else raise ValueError.

Definition toordinal (d : t) : Z := ymd2ord (year d) (month d) (day d).

(** [weekday()]: Monday is 0, Sunday is 6. *)
Definition weekday (d : t) : Z := (toordinal d + 6) mod 7.

(** [date()], as the triple that [==] compares. *)
Definition date (d : t) : Z * Z * Z := (year d, month d, day d).

Definition date_eqb (d1 d2 : Z * Z * Z) : bool :=
  let '(y1, m1, d1) := d1 in
  let '(y2, m2, d2) := d2 in
  (y1 =? y2) && (m1 =? m2) && (d1 =? d2).

Definition secs (d : t) : Z := second d + minute d * 60 + hour d * 3600.

(** [a - b] *)
Definition sub (a b : t) : Timedelta.t :=
  Timedelta.new (toordinal a - toordinal b) (secs a - secs b)
                (microsecond a - microsecond b).

(** [d + td] *)
Definition add (d : t) (td : Timedelta.t) : result t :=
  let delta :=
    Timedelta.add (Timedelta.new (toordinal d) (secs d) (microsecond d)) td in
  let hour := Timedelta.seconds delta / 3600 in
  let rem := Timedelta.seconds delta mod 3600 in
  let minute := rem / 60 in
  let second := rem mod 60 in
  if (0 <? Timedelta.days delta) && (Timedelta.days delta <=? MAXORDINAL)
  then
    let '(y, m, dd) := ord2ymd (Timedelta.days delta) in
    ret (mk y m dd hour minute second (Timedelta.microseconds delta))
  else raise OverflowError.

(** Comparison of two datetimes: lexicographic on the seven fields. *)
Definition lex (c1 c2 : comparison) : comparison :=
  match c1 with
  | Eq => c2
  | _ => c1
  end.

Definition cmp (a b : t) : comparison :=
  lex (year a ?= year b)
   (lex (month a ?= month b)
    (lex (day a ?= day b)
     (lex (hour a ?= hour b)
      (lex (minute a ?= minute b)
       (lex (second a ?= second b)
            (microsecond a ?= microsecond b)))))).

Definition leb (a b : t) : bool :=
  match cmp a b with Gt => false | _ => true end.

Definition ltb (a b : t) : bool :=
  match cmp a b with Lt => true | _ => false end.

End Datetime.

(** ** Python helpers used by the script *)

(** [range(n)]: empty when [n <= 0]. *)
Definition range (n : Z) : list Z := map Z.of_nat (seq 0 (Z.to_nat n)).

(** [enumerate(l)] *)
Definition enumerate {A : Type} (l : list A) : list (Z * A) :=
  combine (map Z.of_nat (seq 0 (length l))) l.

(** A [for] loop whose body may raise: the loop state is threaded through
    the iterations and the first exception ends the loop. *)
Fixpoint for_each {S A : Type} (body : S -> A -> result S) (s : S)
    (l : list A) : result S :=
  match l with
  | [] => ret s
  | x :: l' => s' <- body s x ;; for_each body s' l'
  end.

(** [d[k]] on a dict. *)
Definition getitem {V : Type} (d : gmap string V) (k : string) : result V :=
  match d !! k with
  | Some v => ret v
  | None => raise (KeyError k)
  end.

(** [try: m  except KeyError: handler] *)
Definition try_except_KeyError {A : Type} (m handler : result A) : result A :=
  match m with
  | inl (KeyError _) => handler
  | _ => m
  end.

(** [str(n)] for an [int]. *)
Definition str (n : Z) : string :=
  NilZero.string_of_int (Z.to_int n).

(** [a > b] on amounts. *)
Definition Qgtb (a b : Q) : bool := negb (Qle_bool a b).

(** ** The script *)

(** The duration dict: outer keys ["overall"], ["first_day"], ["remaining"];
    inner keys ["days"], ["hours"], ["minutes"]. *)
Abbreviation duration_dict_t := (gmap string (gmap string Z)).

(** The body of the loop "Get elapsed day" of [get_duration]: the state is
    the pair of counters, [idx] and [i] come from
    [enumerate(range(days))]. *)
Definition elapsed_day_body (then_ : Datetime.t)
    (counts : Z * Z) (item : Z * Z) : result (Z * Z) :=
  let '(elapsed_weekday_count, elapsed_weekend_count) := counts in
  let '(idx, i) := item in
  d <- Datetime.add then_ (Timedelta.new i 0 0) ;;
  let day := Calendar.day_name (Datetime.weekday d) in
  let is_weekend :=
    if String.eqb day "Saturday" || String.eqb day "Sunday"
    then true else false in
  if negb (idx =? 0)
  then
    if is_weekend
    then ret (elapsed_weekday_count, elapsed_weekend_count + 1)
    else ret (elapsed_weekday_count + 1, elapsed_weekend_count)
  else ret (elapsed_weekday_count, elapsed_weekend_count).

Definition get_duration (then_ now : Datetime.t)
    : result (duration_dict_t * Z * Z) :=
  (* Get overall duration *)
  let duration_dict : duration_dict_t := ∅ in
  let duration_datetime := Datetime.sub now then_ in
  let days := Timedelta.days duration_datetime in
  let hours := Timedelta.seconds duration_datetime / 3600 in
  let minutes := Timedelta.seconds duration_datetime mod 3600 / 60 in
  let duration_dict :=
    <["overall" :=
        {["days" := days; "hours" := hours; "minutes" := minutes]}]>
      duration_dict in
  (* Get first day duration *)
  duration_dict <-
    (if negb (Datetime.date_eqb (Datetime.date then_) (Datetime.date now))
     then
       next_date <- Datetime.add then_ (Timedelta.new 1 0 0) ;;
       next_day <- Datetime.new (Datetime.year next_date)
                     (Datetime.month next_date) (Datetime.day next_date)
                     0 1 0 0 ;;
       let duration_first_day := Datetime.sub next_day then_ in
       let first_day_hours := Timedelta.seconds duration_first_day / 3600 in
       let first_day_minutes :=
         Timedelta.seconds duration_first_day mod 3600 / 60 in
       let duration_dict :=
         <["first_day" :=
             {["hours" := first_day_hours; "minutes" := first_day_minutes]}]>
           duration_dict in
       (* Get remaining day duration *)
       ret (<["remaining" :=
                {["hours" := Datetime.hour now;
                  "minutes" := Datetime.minute now]}]>
              duration_dict)
     else ret duration_dict) ;;
  (* Get elapsed day *)
  let elapsed_weekday_count := 0 in
  let elapsed_weekend_count := 0 in
  '(elapsed_weekday_count, elapsed_weekend_count) <-
    for_each (elapsed_day_body then_)
      (elapsed_weekday_count, elapsed_weekend_count)
      (enumerate (range days)) ;;
  ret (duration_dict, elapsed_weekday_count, elapsed_weekend_count).

(** *** Rates

    The script computes fees with Python floats.  Every rate is a multiple
    of one half and every fee is such a rate times a count of hours or days,
    so binary floating point computes the fees exactly as long as the counts
    stay below 2^50; amounts are modelled as exact rationals. *)

Definition first_n_hours : Z := 3.
Definition free_of_charge_minutes : Z := 15.
Definition grace_period_minutes : Z := 5.
Definition weekday_first_n_hours_rate : Q := 3.
Definition weekday_subsequent_hours : Q := 3 # 2.
Definition weekday_max_charge_per_day : Q := 20.
Definition weekend_first_n_hours_rate : Q := 5.
Definition weekend_subsequent_hours : Q := 2.
Definition weekend_max_charge_per_day : Q := 40.

(** Rates based on day type weekday or weekend. *)
Definition first_n_hours_rate (time_in_weekday : bool) : Q :=
  if time_in_weekday then weekday_first_n_hours_rate
  else weekend_first_n_hours_rate.

Definition first_day_subsequent_hours_rate (time_in_weekday : bool) : Q :=
  if time_in_weekday then weekday_subsequent_hours
  else weekend_subsequent_hours.

Definition first_day_max_rate (time_in_weekday : bool) : Q :=
  if time_in_weekday then weekday_max_charge_per_day
  else weekend_max_charge_per_day.

Definition remaining_subsequent_hours_rate (time_out_weekday : bool) : Q :=
  if time_out_weekday then weekday_subsequent_hours
  else weekend_subsequent_hours.

Definition remaining_max_rate (time_out_weekday : bool) : Q :=
  if time_out_weekday then weekday_max_charge_per_day
  else weekend_max_charge_per_day.

(** *** The blocks of [calculate_fee] *)

(** "Calculate elapsed day rate". *)
Definition elapsed_days_fee (weekday_count weekend_count : Z) : Q :=
  if negb (weekday_count =? 0) || negb (weekend_count =? 0)
  then (inject_Z weekday_count * weekday_max_charge_per_day
        + inject_Z weekend_count * weekend_max_charge_per_day)%Q
  else 0%Q.

(** "Calculate based on hour rate for start date". *)
Definition hour_rate_fee (time_in_weekday : bool)
    (hours_to_calculate minutes_to_calculate : Z) : Q :=
  if hours_to_calculate >? first_n_hours
  then (first_n_hours_rate time_in_weekday
        + first_day_subsequent_hours_rate time_in_weekday
          * inject_Z (hours_to_calculate - first_n_hours))%Q
  else if hours_to_calculate =? first_n_hours
  then first_n_hours_rate time_in_weekday
  else if hours_to_calculate <? first_n_hours
  then
    if hours_to_calculate <? 1
    then
      if minutes_to_calculate >? free_of_charge_minutes
      then first_day_subsequent_hours_rate time_in_weekday
      else 0%Q
    else (first_day_subsequent_hours_rate time_in_weekday
          * inject_Z hours_to_calculate)%Q
  else (first_day_subsequent_hours_rate time_in_weekday
        * inject_Z hours_to_calculate)%Q.

(** "Calculate grace period if duration same or more than 1 hour". *)
Definition grace_period (rate : Q) (hours minutes : Z) (fee : Q) : Q :=
  if hours >=? 1
  then if minutes >? grace_period_minutes then (fee + rate)%Q else fee
  else fee.

(** "Check if exceed max rate". *)
Definition check_max_rate (max_rate fee : Q) : Q :=
  if Qgtb fee max_rate then max_rate else fee.

(** The value of [first_day_fee] when the total is formed. *)
Definition first_day_fee (time_in_weekday : bool)
    (hours_to_calculate minutes_to_calculate : Z) : Q :=
  let first_day_fee :=
    hour_rate_fee time_in_weekday hours_to_calculate minutes_to_calculate in
  let first_day_fee :=
    grace_period (first_day_subsequent_hours_rate time_in_weekday)
      hours_to_calculate minutes_to_calculate first_day_fee in
  check_max_rate (first_day_max_rate time_in_weekday) first_day_fee.

(** "Calculate remaining hours and minutes if day-to-day involved": the
    value of [remaining_hours_fee] when the total is formed.  The argument
    is [None] when [remaining_hours is None]. *)
Definition remaining_hours_fee (time_out_weekday : bool)
    (remaining : option (Z * Z)) : Q :=
  match remaining with
  | Some (remaining_hours, remaining_minutes) =>
      let remaining_hours_fee :=
        (inject_Z remaining_hours
         * remaining_subsequent_hours_rate time_out_weekday)%Q in
      let remaining_hours_fee :=
        grace_period (remaining_subsequent_hours_rate time_out_weekday)
          remaining_hours remaining_minutes remaining_hours_fee in
      check_max_rate (remaining_max_rate time_out_weekday) remaining_hours_fee
  | None => 0%Q
  end.

(** "Unpack": the four variables set by the [try] block are all numbers or
    all [None]; they are carried as one optional quadruple. *)
Definition unpack_split (duration_dict : duration_dict_t)
    : result (option (Z * Z * Z * Z)) :=
  try_except_KeyError
    (first_day <- getitem duration_dict "first_day" ;;
     first_duration_hours <- getitem first_day "hours" ;;
     first_day <- getitem duration_dict "first_day" ;;
     first_duration_minutes <- getitem first_day "minutes" ;;
     remaining <- getitem duration_dict "remaining" ;;
     remaining_hours <- getitem remaining "hours" ;;
     remaining <- getitem duration_dict "remaining" ;;
     remaining_minutes <- getitem remaining "minutes" ;;
     ret (Some (first_duration_hours, first_duration_minutes,
                remaining_hours, remaining_minutes)))
    (ret None).

Definition calculate_fee (duration_dict : duration_dict_t)
    (weekday_count weekend_count : Z)
    (time_in_weekday time_out_weekday : bool) : result Q :=
  (* Unpack *)
  overall <- getitem duration_dict "overall" ;;
  overall_duration_hours <- getitem overall "hours" ;;
  overall <- getitem duration_dict "overall" ;;
  overall_duration_minutes <- getitem overall "minutes" ;;
  split <- unpack_split duration_dict ;;
  (* Calculate elapsed day rate *)
  let elapsed_days_fee := elapsed_days_fee weekday_count weekend_count in
  (* Get which duration to use *)
  let '(hours_to_calculate, minutes_to_calculate) :=
    match split with
    | Some (first_duration_hours, first_duration_minutes, _, _) =>
        (first_duration_hours, first_duration_minutes)
    | None => (overall_duration_hours, overall_duration_minutes)
    end in
  let first_day_fee :=
    first_day_fee time_in_weekday hours_to_calculate minutes_to_calculate in
  let remaining_hours_fee :=
    remaining_hours_fee time_out_weekday
      (match split with
       | Some (_, _, remaining_hours, remaining_minutes) =>
           Some (remaining_hours, remaining_minutes)
       | None => None
       end) in
  (* Total rate *)
  let total_fee := (first_day_fee + elapsed_days_fee + remaining_hours_fee)%Q in
  ret total_fee.

Definition get_parking_fee (time_in time_out : Datetime.t)
    : result (string * Q) :=
  (* Check validity, time out should be bigger than time in *)
  let elapsed := Datetime.sub time_out time_in in
  if Timedelta.days elapsed <? 0
  then raise TypeError
  else
    (* Calculate duration *)
    '(duration_dict, weekday_count, weekend_count) <-
      get_duration time_in time_out ;;
    (* Determine time in is weekday or weekend *)
    let time_in_weekday :=
      if Datetime.weekday time_in <? 5 then true else false in
    let time_out_weekday :=
      if Datetime.weekday time_out <? 5 then true else false in
    (* Calculate fee *)
    total_fee <- calculate_fee duration_dict weekday_count weekend_count
                   time_in_weekday time_out_weekday ;;
    (* Construct duration in str *)
    overall <- getitem duration_dict "overall" ;;
    overall_duration_days <- getitem overall "days" ;;
    overall <- getitem duration_dict "overall" ;;
    overall_duration_hours <- getitem overall "hours" ;;
    overall <- getitem duration_dict "overall" ;;
    overall_duration_minutes <- getitem overall "minutes" ;;
    let total_hours := overall_duration_days * 24 + overall_duration_hours in
    let duration_str :=
      if (1 <=? total_hours) && (total_hours <? 24)
      then (str overall_duration_hours ++ " hours "
            ++ str overall_duration_minutes ++ " minutes")%string
      else if total_hours <? 1
      then (str overall_duration_minutes ++ " minutes")%string
      else (str total_hours ++ " hours")%string in
    ret (duration_str, total_fee).

Definition TIME_IN : Datetime.t := Datetime.mk 2023 10 6 8 16 0 57000.
Definition TIME_OUT : Datetime.t := Datetime.mk 2023 10 6 8 27 0 57000.

(** ** Specification vocabulary

    The definitions below are not part of the script: they name the
    quantities in which the properties are stated. *)

Import Calendar.

(** *** Calendar *)

(** The month tables, with the leap flag as a parameter. *)
Definition dbm_l (leap : bool) (month : Z) : Z :=
  index DAYS_BEFORE_MONTH month + b2z ((month >? 2) && leap).

Definition dim_l (leap : bool) (month : Z) : Z :=
  if (month =? 2) && leap then 29 else index DAYS_IN_MONTH month.

(** The month and the day computed by the last part of [ord2ymd] from the
    zero-based day of the year. *)
Definition month_day (leapyear : bool) (n : Z) : Z * Z :=
  let month := Z.shiftr (n + 50) 5 in
  let preceding :=
    index DAYS_BEFORE_MONTH month + b2z ((month >? 2) && leapyear) in
  let '(month, preceding) :=
    if preceding >? n
    then (month - 1,
          preceding
          - (index DAYS_IN_MONTH (month - 1)
             + b2z ((month - 1 =? 2) && leapyear)))
    else (month, preceding) in
  (month, n - preceding + 1).

Definition month_day_ok (leap : bool) (n : Z) : bool :=
  let '(m, d) := month_day leap n in
  (1 <=? m) && (m <=? 12) && (1 <=? d) && (d <=? dim_l leap m)
  && (dbm_l leap m + d =? n + 1).

(** [f n && f (n + 1) && ... ] over [fuel] consecutive integers. *)
Fixpoint all_from (f : Z -> bool) (fuel : nat) (n : Z) : bool :=
  match fuel with
  | O => true
  | S fuel' => if f n then all_from f fuel' (n + 1) else false
  end.

(** The date part of the constructor's checks. *)
Definition valid_date (y m d : Z) : Prop :=
  MINYEAR <= y <= MAXYEAR /\ 1 <= m <= 12 /\ 1 <= d <= days_in_month y m.

(** Lexicographic order on dates. *)
Definition date_lt (a b : Z * Z * Z) : Prop :=
  let '(y1, m1, d1) := a in
  let '(y2, m2, d2) := b in
  y1 < y2 \/ (y1 = y2 /\ (m1 < m2 \/ (m1 = m2 /\ d1 < d2))).

(** *** Instants and durations *)

(** Microseconds from the start of day 0 of the calendar to the instant. *)
Definition total_us (d : Datetime.t) : Z :=
  (Datetime.toordinal d * 86400 + Datetime.secs d) * 1000000
  + Datetime.microsecond d.

Definition elapsed_us (then_ now : Datetime.t) : Z :=
  total_us now - total_us then_.

(** The integral day count of the elapsed time, and the seconds left. *)
Definition overall_days (then_ now : Datetime.t) : Z :=
  elapsed_us then_ now / 86400000000.

Definition overall_seconds (then_ now : Datetime.t) : Z :=
  elapsed_us then_ now mod 86400000000 / 1000000.

(** The [seconds] of [next_day - then]: [next_day] is one minute past the
    midnight that follows [then_]. *)
Definition first_day_seconds (then_ : Datetime.t) : Z :=
  Timedelta.seconds
    (Timedelta.new 1 (60 - Datetime.secs then_)
       (0 - Datetime.microsecond then_)).

(** *** Days of the week *)

Definition weekday_of_ordinal (o : Z) : Z := (o + 6) mod 7.

(** Saturday and Sunday are the weekend. *)
Definition is_weekend_ordinal (o : Z) : bool :=
  let day := day_name (weekday_of_ordinal o) in
  String.eqb day "Saturday" || String.eqb day "Sunday".

Definition is_weekday_ordinal (o : Z) : bool := negb (is_weekend_ordinal o).

Definition is_weekday (d : Datetime.t) : bool := Datetime.weekday d <? 5.

(** The calendar days [then_.date() + first], ...,
    [then_.date() + first + n - 1], as ordinals. *)
Definition days_after (then_ : Datetime.t) (first n : nat) : list Z :=
  map (fun k => Datetime.toordinal then_ + Z.of_nat k) (seq first n).

Definition count (p : Z -> bool) (l : list Z) : Z :=
  Z.of_nat (length (List.filter p l)).

(** The counters that [get_duration] returns. *)
Definition elapsed_counts (then_ now : Datetime.t) : Z * Z :=
  let n := (Z.to_nat (overall_days then_ now) - 1)%nat in
  (count is_weekday_ordinal (days_after then_ 1 n),
   count is_weekend_ordinal (days_after then_ 1 n)).

(** *** The duration dict *)

Definition overall_dict (then_ now : Datetime.t) : duration_dict_t :=
  <["overall" :=
      {["days" := overall_days then_ now;
        "hours" := overall_seconds then_ now / 3600;
        "minutes" := overall_seconds then_ now mod 3600 / 60]}]> ∅.

Definition split_dict (then_ now : Datetime.t) : duration_dict_t :=
  <["remaining" :=
      {["hours" := Datetime.hour now; "minutes" := Datetime.minute now]}]>
    (<["first_day" :=
         {["hours" := first_day_seconds then_ / 3600;
           "minutes" := first_day_seconds then_ mod 3600 / 60]}]>
       (overall_dict then_ now)).

(** *** Fee and label of a stay *)

(** The duration priced as first segment, and the remaining segment. *)
Definition billable (then_ now : Datetime.t) : Z * Z * option (Z * Z) :=
  if Datetime.date_eqb (Datetime.date then_) (Datetime.date now)
  then (overall_seconds then_ now / 3600,
        overall_seconds then_ now mod 3600 / 60, None)
  else (first_day_seconds then_ / 3600,
        first_day_seconds then_ mod 3600 / 60,
        Some (Datetime.hour now, Datetime.minute now)).

Definition total_fee_of (then_ now : Datetime.t) : Q :=
  let '(h, m, remaining) := billable then_ now in
  (first_day_fee (is_weekday then_) h m
   + elapsed_days_fee (fst (elapsed_counts then_ now))
       (snd (elapsed_counts then_ now))
   + remaining_hours_fee (is_weekday now) remaining)%Q.

Definition duration_label (days hours minutes : Z) : string :=
  let total_hours := days * 24 + hours in
  if (1 <=? total_hours) && (total_hours <? 24)
  then (str hours ++ " hours " ++ str minutes ++ " minutes")%string
  else if total_hours <? 1
  then (str minutes ++ " minutes")%string
  else (str total_hours ++ " hours")%string.

(** *** Sample stays *)

(** Monday 2 October 2023, 08:00, to Wednesday 4 October 2023, 10:00. *)
Definition MONDAY_IN : Datetime.t := Datetime.mk 2023 10 2 8 0 0 0.
Definition WEDNESDAY_OUT : Datetime.t := Datetime.mk 2023 10 4 10 0 0 0.

(** Friday 6 October 2023, 08:16:00, to the next day, and the midnight in
    between. *)
Definition ENTRY_0816 : Datetime.t := Datetime.mk 2023 10 6 8 16 0 0.
Definition EXIT_NEXT_DAY : Datetime.t := Datetime.mk 2023 10 7 8 27 0 0.
Definition NEXT_MIDNIGHT : Datetime.t := Datetime.mk 2023 10 7 0 0 0 0.
(** ** Facts about the calendar *)

Lemma days_before_month_l y m : days_before_month y m = dbm_l (is_leap y) m.
Proof. reflexivity. Qed.

Lemma days_in_month_l y m : days_in_month y m = dim_l (is_leap y) m.
Proof. reflexivity. Qed.

Lemma is_leap_spec y :
  is_leap y = true <-> (y mod 4 = 0 /\ (y mod 100 <> 0 \/ y mod 400 = 0)).
Proof.
  unfold is_leap.
  rewrite andb_true_iff, orb_true_iff, negb_true_iff, !Z.eqb_eq, Z.eqb_neq.
  tauto.
Qed.

(** A year has 365 days, and one more when it is a leap year. *)
Lemma days_before_year_succ y :
  days_before_year (y + 1) = days_before_year y + 365 + b2z (is_leap y).
Proof.
  unfold days_before_year.
  destruct (is_leap y) eqn:E.
  - apply is_leap_spec in E. simpl b2z.
    replace (y + 1 - 1) with y by lia.
    Z.div_mod_to_equations. lia.
  - assert (H : ~ (y mod 4 = 0 /\ (y mod 100 <> 0 \/ y mod 400 = 0))).
    { rewrite <- is_leap_spec. congruence. }
    simpl b2z. replace (y + 1 - 1) with y by lia.
    Z.div_mod_to_equations. lia.
Qed.

Lemma days_before_year_mono y1 y2 :
  y1 <= y2 -> days_before_year y1 <= days_before_year y2.
Proof.
  unfold days_before_year. intros H.
  Z.div_mod_to_equations. lia.
Qed.

Lemma all_from_spec f fuel : forall n k,
  all_from f fuel n = true -> n <= k < n + Z.of_nat fuel -> f k = true.
Proof.
  induction fuel as [|fuel IH]; intros n k H Hk; [lia|].
  simpl in H. destruct (f n) eqn:E; [|discriminate].
  destruct (Z.eq_dec k n) as [->|Hne]; [exact E|].
  apply (IH (n + 1)); [exact H|lia].
Qed.

(** The month arithmetic of [ord2ymd] is right on every day of a year:
    checked by evaluation on the 365 days, for both kinds of year. *)
Lemma month_day_spec leap n :
  0 <= n <= 364 ->
  let '(m, d) := month_day leap n in
  1 <= m <= 12 /\ 1 <= d <= dim_l leap m /\ dbm_l leap m + d = n + 1.
Proof.
  intros Hn.
  assert (H : month_day_ok leap n = true).
  { apply (all_from_spec (month_day_ok leap) 365 0); [|lia].
    destruct leap; vm_compute; reflexivity. }
  unfold month_day_ok in H. destruct (month_day leap n) as [m d].
  rewrite !andb_true_iff in H. lia.
Qed.

Lemma ord2ymd_eq n :
  ord2ymd n =
  let N := n - 1 in
  let n400 := N / 146097 in
  let r1 := N mod 146097 in
  let n100 := r1 / 36524 in
  let r2 := r1 mod 36524 in
  let n4 := r2 / 1461 in
  let r3 := r2 mod 1461 in
  let n1 := r3 / 365 in
  let r4 := r3 mod 365 in
  let year := n400 * 400 + 1 + (n100 * 100 + n4 * 4 + n1) in
  if (n1 =? 4) || (n100 =? 4) then (year - 1, 12, 31)
  else
    let leapyear := (n1 =? 3) && (negb (n4 =? 24) || (n100 =? 3)) in
    (year, fst (month_day leapyear r4), snd (month_day leapyear r4)).
Proof.
  unfold ord2ymd, month_day, DI400Y, DI100Y, DI4Y. cbv zeta.
  destruct (_ || _); [reflexivity|].
  destruct (_ >? _); reflexivity.
Qed.

(** [ord2ymd] returns a date of the calendar, and [ymd2ord] maps it back. *)
Lemma ord2ymd_spec n :
  1 <= n ->
  let '(y, m, d) := ord2ymd n in
  1 <= y /\ 1 <= m <= 12 /\ 1 <= d <= days_in_month y m /\ ymd2ord y m d = n.
Proof.
  intros Hn. rewrite ord2ymd_eq. cbv zeta.
  set (N := n - 1).
  set (n400 := N / 146097). set (r1 := N mod 146097).
  set (n100 := r1 / 36524). set (r2 := r1 mod 36524).
  set (n4 := r2 / 1461). set (r3 := r2 mod 1461).
  set (n1 := r3 / 365). set (r4 := r3 mod 365).
  assert (HN : N = 146097 * n400 + r1 /\ 0 <= r1 < 146097 /\ 0 <= n400).
  { subst n400 r1. Z.div_mod_to_equations. lia. }
  assert (H1 : r1 = 36524 * n100 + r2 /\ 0 <= r2 < 36524 /\ 0 <= n100 <= 4).
  { subst n100 r2. Z.div_mod_to_equations. lia. }
  assert (H2 : r2 = 1461 * n4 + r3 /\ 0 <= r3 < 1461 /\ 0 <= n4 <= 24).
  { subst n4 r3. Z.div_mod_to_equations. lia. }
  assert (H3 : r3 = 365 * n1 + r4 /\ 0 <= r4 < 365 /\ 0 <= n1 <= 4).
  { subst n1 r4. Z.div_mod_to_equations. lia. }
  clearbody n400 r1 n100 r2 n4 r3 n1 r4.
  set (Y := n400 * 400 + 1 + (n100 * 100 + n4 * 4 + n1)).
  assert (HY : Y = 400 * n400 + 100 * n100 + 4 * n4 + n1 + 1) by (subst Y; lia).
  clearbody Y.
  destruct ((n1 =? 4) || (n100 =? 4)) eqn:Ex.
  - (* last day of a leap year *)
    apply orb_true_iff in Ex. rewrite !Z.eqb_eq in Ex.
    assert (Hleap : is_leap (Y - 1) = true).
    { apply is_leap_spec. Z.div_mod_to_equations. lia. }
    unfold ymd2ord. rewrite days_in_month_l, days_before_month_l, Hleap.
    change (dim_l true 12) with 31. change (dbm_l true 12) with 335.
    pose proof (days_before_year_succ (Y - 1)) as Hs.
    rewrite Hleap in Hs. simpl b2z in Hs.
    replace (Y - 1 + 1) with Y in Hs by lia.
    assert (Hd : days_before_year Y = n).
    { unfold days_before_year. Z.div_mod_to_equations. lia. }
    lia.
  - apply orb_false_iff in Ex. rewrite !Z.eqb_neq in Ex.
    set (L := (n1 =? 3) && (negb (n4 =? 24) || (n100 =? 3))).
    assert (Hleap : is_leap Y = L).
    { subst L. destruct (is_leap Y) eqn:E.
      - apply is_leap_spec in E. symmetry.
        rewrite andb_true_iff, orb_true_iff, negb_true_iff, Z.eqb_neq, !Z.eqb_eq.
        Z.div_mod_to_equations. lia.
      - symmetry. apply not_true_is_false. intros HL.
        rewrite andb_true_iff, orb_true_iff, negb_true_iff, Z.eqb_neq, !Z.eqb_eq in HL.
        assert (is_leap Y = true); [|congruence].
        apply is_leap_spec. Z.div_mod_to_equations. lia. }
    pose proof (month_day_spec L r4) as Hmd.
    destruct (month_day L r4) as [m d]. simpl fst; simpl snd.
    unfold ymd2ord. rewrite days_in_month_l, days_before_month_l, Hleap.
    assert (Hd : days_before_year Y = n - 1 - r4).
    { unfold days_before_year. Z.div_mod_to_equations. lia. }
    lia.
Qed.

Lemma month_cases m :
  1 <= m <= 12 ->
  m = 1 \/ m = 2 \/ m = 3 \/ m = 4 \/ m = 5 \/ m = 6 \/ m = 7 \/ m = 8
  \/ m = 9 \/ m = 10 \/ m = 11 \/ m = 12.
Proof. lia. Qed.

Ltac each_month H :=
  apply month_cases in H;
  repeat (destruct H as [H | H]; [subst | ]); [.. | subst].

Lemma dbm_l_bounds leap m :
  1 <= m <= 12 ->
  0 <= dbm_l leap m /\ 1 <= dim_l leap m
  /\ dbm_l leap m + dim_l leap m <= 365 + b2z leap.
Proof.
  intros H. each_month H; destruct leap; vm_compute; intuition discriminate.
Qed.

Lemma dbm_l_lt leap m1 m2 :
  1 <= m1 <= 12 -> 1 <= m2 <= 12 -> m1 < m2 ->
  dbm_l leap m1 + dim_l leap m1 <= dbm_l leap m2.
Proof.
  intros H1 H2 Hlt.
  each_month H1; each_month H2; try lia; destruct leap; vm_compute; discriminate.
Qed.

Lemma ymd2ord_year_bounds y m d :
  1 <= m <= 12 -> 1 <= d <= days_in_month y m ->
  days_before_year y < ymd2ord y m d <= days_before_year (y + 1).
Proof.
  intros Hm Hd. rewrite days_before_year_succ. unfold ymd2ord.
  rewrite days_in_month_l in Hd. rewrite days_before_month_l.
  pose proof (dbm_l_bounds (is_leap y) m Hm). lia.
Qed.

Lemma ymd2ord_range y m d :
  valid_date y m d -> 1 <= ymd2ord y m d <= MAXORDINAL.
Proof.
  intros (Hy & Hm & Hd). unfold MINYEAR, MAXYEAR in Hy.
  pose proof (ymd2ord_year_bounds y m d Hm Hd).
  pose proof (days_before_year_mono 1 y ltac:(lia)).
  pose proof (days_before_year_mono (y + 1) 10000 ltac:(lia)).
  change (days_before_year 1) with 0 in *.
  change (days_before_year 10000) with MAXORDINAL in *. lia.
Qed.

(** [ymd2ord] is strictly increasing for the lexicographic order on dates. *)
Lemma ymd2ord_lt y1 m1 d1 y2 m2 d2 :
  1 <= m1 <= 12 -> 1 <= d1 <= days_in_month y1 m1 ->
  1 <= m2 <= 12 -> 1 <= d2 <= days_in_month y2 m2 ->
  date_lt (y1, m1, d1) (y2, m2, d2) ->
  ymd2ord y1 m1 d1 < ymd2ord y2 m2 d2.
Proof.
  intros Hm1 Hd1 Hm2 Hd2 [Hy | [-> [Hm | [-> Hd]]]].
  - pose proof (ymd2ord_year_bounds y1 m1 d1 Hm1 Hd1).
    pose proof (ymd2ord_year_bounds y2 m2 d2 Hm2 Hd2).
    pose proof (days_before_year_mono (y1 + 1) y2 ltac:(lia)). lia.
  - unfold ymd2ord. rewrite !days_before_month_l.
    rewrite days_in_month_l in Hd1.
    pose proof (dbm_l_lt (is_leap y2) m1 m2 Hm1 Hm2 Hm). lia.
  - unfold ymd2ord. lia.
Qed.

Lemma ord2ymd_valid n :
  1 <= n <= MAXORDINAL ->
  exists y m d, ord2ymd n = (y, m, d) /\ valid_date y m d /\ ymd2ord y m d = n.
Proof.
  intros Hn. pose proof (ord2ymd_spec n ltac:(lia)) as H.
  destruct (ord2ymd n) as [[y m] d]. exists y, m, d.
  destruct H as (Hy & Hm & Hd & Ho).
  split; [reflexivity|]. split; [|exact Ho].
  split; [|tauto]. unfold MINYEAR, MAXYEAR. split; [lia|].
  destruct (Z_le_gt_dec y 9999) as [Hle|Hgt]; [exact Hle|exfalso].
  pose proof (ymd2ord_year_bounds y m d Hm Hd).
  pose proof (days_before_year_mono 10000 y ltac:(lia)).
  change (days_before_year 10000) with MAXORDINAL in *. lia.
Qed.

(** ** Facts about [timedelta] and [datetime] *)

Lemma valid_fields d :
  Datetime.valid d ->
  valid_date (Datetime.year d) (Datetime.month d) (Datetime.day d)
  /\ 0 <= Datetime.hour d <= 23 /\ 0 <= Datetime.minute d <= 59
  /\ 0 <= Datetime.second d <= 59 /\ 0 <= Datetime.microsecond d <= 999999.
Proof.
  unfold Datetime.valid, Datetime.check_fields, valid_date.
  rewrite !andb_true_iff, !Z.leb_le. tauto.
Qed.

Lemma valid_intro d :
  valid_date (Datetime.year d) (Datetime.month d) (Datetime.day d) ->
  0 <= Datetime.hour d <= 23 -> 0 <= Datetime.minute d <= 59 ->
  0 <= Datetime.second d <= 59 -> 0 <= Datetime.microsecond d <= 999999 ->
  Datetime.valid d.
Proof.
  unfold Datetime.valid, Datetime.check_fields, valid_date.
  rewrite !andb_true_iff, !Z.leb_le. tauto.
Qed.

Lemma valid_toordinal d :
  Datetime.valid d -> 1 <= Datetime.toordinal d <= MAXORDINAL.
Proof.
  intros H. apply valid_fields in H. now apply ymd2ord_range.
Qed.

Lemma valid_secs d : Datetime.valid d -> 0 <= Datetime.secs d <= 86399.
Proof.
  intros H. apply valid_fields in H. unfold Datetime.secs. lia.
Qed.

Lemma secs_hour h m s :
  0 <= m <= 59 -> 0 <= s <= 59 ->
  (s + m * 60 + h * 3600) / 3600 = h
  /\ (s + m * 60 + h * 3600) mod 3600 / 60 = m
  /\ (s + m * 60 + h * 3600) mod 3600 mod 60 = s.
Proof. intros Hm Hs. Z.div_mod_to_equations. lia. Qed.

(** Normalisation keeps the duration and bounds the two low fields. *)
Lemma timedelta_new_spec d s us :
  let td := Timedelta.new d s us in
  (Timedelta.days td * 86400 + Timedelta.seconds td) * 1000000
  + Timedelta.microseconds td = (d * 86400 + s) * 1000000 + us
  /\ 0 <= Timedelta.seconds td < 86400
  /\ 0 <= Timedelta.microseconds td < 1000000.
Proof.
  unfold Timedelta.new. cbn -[Z.div Z.modulo Z.mul Z.add].
  Z.div_mod_to_equations. lia.
Qed.

Lemma timedelta_new_small d s us :
  0 <= s < 86400 -> 0 <= us < 1000000 ->
  Timedelta.new d s us = Timedelta.mk d s us.
Proof.
  intros Hs Hus. unfold Timedelta.new.
  rewrite (Z.div_small us), (Z.mod_small us), Z.add_0_r by lia.
  rewrite (Z.div_small s), (Z.mod_small s), Z.add_0_r by lia.
  reflexivity.
Qed.

(** The difference of two datetimes, in terms of elapsed microseconds. *)
Lemma sub_spec a b :
  let td := Datetime.sub a b in
  let e := total_us a - total_us b in
  Timedelta.days td = e / 86400000000
  /\ Timedelta.seconds td = e mod 86400000000 / 1000000
  /\ Timedelta.microseconds td = e mod 1000000.
Proof.
  cbv zeta. unfold Datetime.sub, total_us.
  set (o := Datetime.toordinal a - Datetime.toordinal b).
  set (s := Datetime.secs a - Datetime.secs b).
  set (u := Datetime.microsecond a - Datetime.microsecond b).
  pose proof (timedelta_new_spec o s u) as H. cbv zeta in H.
  destruct (Timedelta.new o s u) as [D S U]. cbn [Timedelta.days Timedelta.seconds Timedelta.microseconds] in *.
  replace ((Datetime.toordinal a * 86400 + Datetime.secs a) * 1000000
           + Datetime.microsecond a
           - ((Datetime.toordinal b * 86400 + Datetime.secs b) * 1000000
              + Datetime.microsecond b))
    with ((o * 86400 + s) * 1000000 + u) by (subst o s u; lia).
  destruct H as (H & HS & HU). rewrite <- H.
  clearbody o s u. clear H.
  Z.div_mod_to_equations. lia.
Qed.

Lemma total_us_lt a b :
  Datetime.valid a -> Datetime.valid b ->
  Datetime.toordinal a < Datetime.toordinal b -> total_us a < total_us b.
Proof.
  intros Ha Hb Hlt. pose proof (valid_secs a Ha). pose proof (valid_secs b Hb).
  apply valid_fields in Ha, Hb. unfold total_us. lia.
Qed.

(** The comparison of datetimes agrees with the order of instants. *)
Lemma cmp_spec a b :
  Datetime.valid a -> Datetime.valid b ->
  match Datetime.cmp a b with
  | Lt => total_us a < total_us b
  | Eq => a = b
  | Gt => total_us b < total_us a
  end.
Proof.
  intros Ha Hb.
  pose proof (total_us_lt a b Ha Hb) as Hab.
  pose proof (total_us_lt b a Hb Ha) as Hba.
  pose proof (valid_fields a Ha) as (Da & Fa).
  pose proof (valid_fields b Hb) as (Db & Fb).
  destruct Da as (_ & Hma & Hda). destruct Db as (_ & Hmb & Hdb).
  pose proof (ymd2ord_lt (Datetime.year a) (Datetime.month a) (Datetime.day a)
                (Datetime.year b) (Datetime.month b) (Datetime.day b)
                Hma Hda Hmb Hdb) as Lab.
  pose proof (ymd2ord_lt (Datetime.year b) (Datetime.month b) (Datetime.day b)
                (Datetime.year a) (Datetime.month a) (Datetime.day a)
                Hmb Hdb Hma Hda) as Lba.
  unfold Datetime.toordinal in Hab, Hba. unfold date_lt in Lab, Lba.
  unfold Datetime.cmp, Datetime.lex.
  destruct (Z.compare_spec (Datetime.year a) (Datetime.year b)) as [Ey|Ly|Ly];
    [|apply Hab, Lab; lia|apply Hba, Lba; lia].
  destruct (Z.compare_spec (Datetime.month a) (Datetime.month b)) as [Em|Lm|Lm];
    [|apply Hab, Lab; lia|apply Hba, Lba; lia].
  destruct (Z.compare_spec (Datetime.day a) (Datetime.day b)) as [Ed|Ld|Ld];
    [|apply Hab, Lab; lia|apply Hba, Lba; lia].
  clear Hab Hba Lab Lba.
  assert (Eo : Datetime.toordinal a = Datetime.toordinal b).
  { unfold Datetime.toordinal. congruence. }
  unfold total_us, Datetime.secs. rewrite Eo.
  destruct (Z.compare_spec (Datetime.hour a) (Datetime.hour b)) as [Eh|Lh|Lh];
    [|lia|lia].
  destruct (Z.compare_spec (Datetime.minute a) (Datetime.minute b)) as [Emi|Lmi|Lmi];
    [|lia|lia].
  destruct (Z.compare_spec (Datetime.second a) (Datetime.second b)) as [Es|Ls|Ls];
    [|lia|lia].
  destruct (Z.compare_spec (Datetime.microsecond a) (Datetime.microsecond b)) as [Eu|Lu|Lu];
    [|lia|lia].
  destruct a, b; simpl in *; congruence.
Qed.

Lemma leb_total_us a b :
  Datetime.valid a -> Datetime.valid b ->
  Datetime.leb a b = true <-> total_us a <= total_us b.
Proof.
  intros Ha Hb. pose proof (cmp_spec a b Ha Hb) as H. unfold Datetime.leb.
  destruct (Datetime.cmp a b); [subst|..]; split; intros; try lia;
    try reflexivity; try discriminate.
Qed.

Lemma ltb_total_us a b :
  Datetime.valid a -> Datetime.valid b ->
  Datetime.ltb a b = true <-> total_us a < total_us b.
Proof.
  intros Ha Hb. pose proof (cmp_spec a b Ha Hb) as H. unfold Datetime.ltb.
  destruct (Datetime.cmp a b); [subst|..]; split; intros; try lia;
    try reflexivity; try discriminate.
Qed.

Lemma leb_toordinal then_ now :
  Datetime.valid then_ -> Datetime.valid now ->
  Datetime.leb then_ now = true ->
  Datetime.toordinal then_ <= Datetime.toordinal now.
Proof.
  intros Ht Hn Hle. apply (leb_total_us _ _ Ht Hn) in Hle.
  destruct (Z_le_gt_dec (Datetime.toordinal then_) (Datetime.toordinal now))
    as [H|H]; [exact H|].
  pose proof (total_us_lt now then_ Hn Ht ltac:(lia)). lia.
Qed.

Lemma date_eqb_toordinal a b :
  Datetime.valid a -> Datetime.valid b ->
  Datetime.date_eqb (Datetime.date a) (Datetime.date b) = true
  <-> Datetime.toordinal a = Datetime.toordinal b.
Proof.
  intros Ha Hb.
  pose proof (valid_fields a Ha) as ((_ & Hma & Hda) & _).
  pose proof (valid_fields b Hb) as ((_ & Hmb & Hdb) & _).
  unfold Datetime.date_eqb, Datetime.date, Datetime.toordinal.
  rewrite !andb_true_iff, !Z.eqb_eq. split.
  - intros [[-> ->] ->]. reflexivity.
  - intros E.
    pose proof (ymd2ord_lt _ _ _ _ _ _ Hma Hda Hmb Hdb) as Lab.
    pose proof (ymd2ord_lt _ _ _ _ _ _ Hmb Hdb Hma Hda) as Lba.
    unfold date_lt in Lab, Lba. lia.
Qed.

(** Adding whole days moves the date and keeps the time of day; it fails
    only outside the range of ordinals. *)
Lemma add_days d i :
  Datetime.valid d ->
  1 <= Datetime.toordinal d + i <= MAXORDINAL ->
  exists d',
    Datetime.add d (Timedelta.new i 0 0) = inr d'
    /\ Datetime.valid d'
    /\ Datetime.toordinal d' = Datetime.toordinal d + i
    /\ Datetime.hour d' = Datetime.hour d
    /\ Datetime.minute d' = Datetime.minute d
    /\ Datetime.second d' = Datetime.second d
    /\ Datetime.microsecond d' = Datetime.microsecond d.
Proof.
  intros Hd Hi.
  pose proof (valid_secs d Hd) as Hs.
  pose proof (valid_fields d Hd) as (_ & Hh & Hm & Hse & Hu).
  unfold Datetime.add.
  rewrite (timedelta_new_small (Datetime.toordinal d)) by lia.
  rewrite (timedelta_new_small i 0 0) by lia.
  unfold Timedelta.add.
  cbn [Timedelta.days Timedelta.seconds Timedelta.microseconds].
  rewrite !Z.add_0_r, timedelta_new_small by lia.
  cbn [Timedelta.days Timedelta.seconds Timedelta.microseconds].
  replace ((0 <? Datetime.toordinal d + i)
           && (Datetime.toordinal d + i <=? MAXORDINAL)) with true
    by (symmetry; apply andb_true_iff; rewrite Z.ltb_lt, Z.leb_le; lia).
  destruct (ord2ymd_valid _ Hi) as (y & m & dd & -> & Hv & Ho).
  pose proof (secs_hour (Datetime.hour d) (Datetime.minute d) (Datetime.second d) Hm Hse)
    as (E1 & E2 & E3).
  unfold Datetime.secs. rewrite E1, E2, E3.
  eexists. split; [reflexivity|].
  split; [apply valid_intro; assumption|].
  split; [exact Ho|]. cbn. tauto.
Qed.

Lemma new_midnight_minute d :
  Datetime.valid d ->
  Datetime.new (Datetime.year d) (Datetime.month d) (Datetime.day d) 0 1 0 0
  = inr (Datetime.mk (Datetime.year d) (Datetime.month d) (Datetime.day d)
           0 1 0 0).
Proof.
  intros H. unfold Datetime.new.
  replace (Datetime.check_fields _) with true; [reflexivity|].
  symmetry. apply valid_intro; cbn; try lia. now apply valid_fields in H.
Qed.

(** [first_day_seconds] counts the seconds to one minute past the next
    midnight, modulo one day. *)
Lemma first_day_seconds_eq then_ :
  Datetime.valid then_ ->
  first_day_seconds then_
  = ((86400 + 60 - Datetime.secs then_) * 1000000 - Datetime.microsecond then_)
      mod 86400000000 / 1000000.
Proof.
  intros H. pose proof (valid_secs _ H). apply valid_fields in H.
  unfold first_day_seconds.
  pose proof (timedelta_new_spec 1 (60 - Datetime.secs then_) (0 - Datetime.microsecond then_)) as T.
  cbv zeta in T. destruct (Timedelta.new _ _ _) as [D S U].
  cbn [Timedelta.days Timedelta.seconds Timedelta.microseconds] in *.
  Z.div_mod_to_equations. lia.
Qed.

Lemma overall_days_le then_ now :
  Datetime.valid then_ -> Datetime.valid now ->
  overall_days then_ now <= Datetime.toordinal now - Datetime.toordinal then_.
Proof.
  intros Ht Hn. pose proof (valid_secs _ Ht). pose proof (valid_secs _ Hn).
  apply valid_fields in Ht, Hn.
  unfold overall_days, elapsed_us, total_us.
  Z.div_mod_to_equations. lia.
Qed.

Lemma overall_days_nonneg then_ now :
  0 <= overall_days then_ now <-> total_us then_ <= total_us now.
Proof.
  unfold overall_days, elapsed_us. Z.div_mod_to_equations. lia.
Qed.

(** ** The loop over the elapsed days *)

Lemma day_name_weekend w :
  0 <= w <= 6 ->
  (String.eqb (day_name w) "Saturday" || String.eqb (day_name w) "Sunday")
  = (5 <=? w).
Proof.
  intros H.
  assert (C : w = 0 \/ w = 1 \/ w = 2 \/ w = 3 \/ w = 4 \/ w = 5 \/ w = 6) by lia.
  repeat (destruct C as [-> | C]; [reflexivity|]). subst. reflexivity.
Qed.

Lemma is_weekend_ordinal_eq o :
  is_weekend_ordinal o = (5 <=? weekday_of_ordinal o).
Proof.
  unfold is_weekend_ordinal. cbv zeta. apply day_name_weekend.
  unfold weekday_of_ordinal. pose proof (Z.mod_pos_bound (o + 6) 7). lia.
Qed.

Lemma if_bool_id (b : bool) : (if b then true else false) = b.
Proof. now destruct b. Qed.

Lemma enumerate_range n :
  enumerate (range n)
  = map (fun k => (Z.of_nat k, Z.of_nat k)) (seq 0 (Z.to_nat n)).
Proof.
  unfold enumerate, range. rewrite length_map, length_seq.
  generalize (seq 0 (Z.to_nat n)) as l.
  induction l as [|x l IH]; [reflexivity|]. simpl. now rewrite IH.
Qed.

Lemma count_split l :
  count is_weekday_ordinal l + count is_weekend_ordinal l
  = Z.of_nat (length l).
Proof.
  unfold count, is_weekday_ordinal.
  induction l as [|x l IH]; [reflexivity|].
  cbn [List.filter length].
  destruct (is_weekend_ordinal x); cbn [negb length]; lia.
Qed.

Section ElapsedLoop.

Variable then_ : Datetime.t.
Hypothesis then_valid : Datetime.valid then_.

(** One iteration: the first one ([idx = 0]) counts nothing, the others
    classify the day [then_ + timedelta(days=i)]. *)
Lemma elapsed_day_body_spec wd we k :
  1 <= Datetime.toordinal then_ + Z.of_nat k <= MAXORDINAL ->
  elapsed_day_body then_ (wd, we) (Z.of_nat k, Z.of_nat k)
  = inr (if (k =? 0)%nat then (wd, we)
         else if is_weekend_ordinal (Datetime.toordinal then_ + Z.of_nat k)
              then (wd, we + 1) else (wd + 1, we)).
Proof.
  intros Hk. unfold elapsed_day_body.
  destruct (add_days then_ (Z.of_nat k) then_valid Hk) as (d & -> & Hd & Ho & _).
  cbn [bind].
  unfold Datetime.weekday. rewrite Ho, if_bool_id.
  change (String.eqb (day_name ((Datetime.toordinal then_ + Z.of_nat k + 6) mod 7))
            "Saturday"
          || String.eqb (day_name ((Datetime.toordinal then_ + Z.of_nat k + 6) mod 7))
               "Sunday")
    with (is_weekend_ordinal (Datetime.toordinal then_ + Z.of_nat k)).
  destruct k as [|k]; [reflexivity|].
  replace (Z.of_nat (S k) =? 0) with false by (symmetry; apply Z.eqb_neq; lia).
  cbn [negb Nat.eqb].
  destruct (is_weekend_ordinal _); reflexivity.
Qed.

Lemma elapsed_loop_from n : forall s wd we,
  (1 <= s)%nat ->
  Datetime.toordinal then_ + Z.of_nat (s + n) <= MAXORDINAL + 1 ->
  for_each (elapsed_day_body then_) (wd, we)
    (map (fun k => (Z.of_nat k, Z.of_nat k)) (seq s n))
  = inr (wd + count is_weekday_ordinal (days_after then_ s n),
         we + count is_weekend_ordinal (days_after then_ s n)).
Proof.
  pose proof (valid_toordinal then_ then_valid) as Ho.
  induction n as [|n IH]; intros s wd we Hs Hmax.
  - cbn. unfold count. cbn. f_equal. f_equal; lia.
  - cbn [seq map for_each].
    rewrite elapsed_day_body_spec by lia.
    cbn [bind].
    replace (s =? 0)%nat with false by (symmetry; apply Nat.eqb_neq; lia).
    unfold days_after, count, is_weekday_ordinal. cbn [seq map List.filter].
    destruct (is_weekend_ordinal (Datetime.toordinal then_ + Z.of_nat s)) eqn:E;
      cbn [negb]; rewrite IH by lia;
      unfold days_after, count, is_weekday_ordinal; cbn [length];
      f_equal; f_equal; lia.
Qed.

Lemma elapsed_loop days :
  Datetime.toordinal then_ + days <= MAXORDINAL + 1 ->
  for_each (elapsed_day_body then_) (0, 0) (enumerate (range days))
  = inr (count is_weekday_ordinal (days_after then_ 1 (Z.to_nat days - 1)),
         count is_weekend_ordinal (days_after then_ 1 (Z.to_nat days - 1))).
Proof.
  intros Hmax. rewrite enumerate_range.
  pose proof (valid_toordinal then_ then_valid) as Ho.
  destruct (Z.to_nat days) as [|n] eqn:En; [reflexivity|].
  cbn [seq map for_each].
  rewrite elapsed_day_body_spec by lia.
  cbn [bind Nat.eqb].
  rewrite elapsed_loop_from by lia.
  replace (S n - 1)%nat with n by lia. reflexivity.
Qed.

End ElapsedLoop.

(** ** Lookups in the duration dict *)

Lemma lookup_hours (h m : Z) :
  ({["hours" := h; "minutes" := m]} : gmap string Z) !! "hours" = Some h.
Proof. reflexivity. Qed.

Lemma lookup_minutes (h m : Z) :
  ({["hours" := h; "minutes" := m]} : gmap string Z) !! "minutes" = Some m.
Proof. reflexivity. Qed.

Lemma lookup_overall_first_day then_ now :
  overall_dict then_ now !! "first_day" = None.
Proof. reflexivity. Qed.

Lemma lookup_overall_remaining then_ now :
  overall_dict then_ now !! "remaining" = None.
Proof. reflexivity. Qed.

Lemma lookup_split_first_day then_ now :
  split_dict then_ now !! "first_day"
  = Some {["hours" := first_day_seconds then_ / 3600;
           "minutes" := first_day_seconds then_ mod 3600 / 60]}.
Proof. reflexivity. Qed.

Lemma lookup_split_remaining then_ now :
  split_dict then_ now !! "remaining"
  = Some {["hours" := Datetime.hour now; "minutes" := Datetime.minute now]}.
Proof. reflexivity. Qed.

Lemma unpack_split_overall then_ now :
  unpack_split (overall_dict then_ now) = inr None.
Proof. reflexivity. Qed.

Lemma unpack_split_split then_ now :
  unpack_split (split_dict then_ now)
  = inr (Some (first_day_seconds then_ / 3600,
               first_day_seconds then_ mod 3600 / 60,
               Datetime.hour now, Datetime.minute now)).
Proof. reflexivity. Qed.

Lemma inr_inj {A : Type} (a b : A) : @inr exn A a = inr b -> a = b.
Proof. congruence. Qed.

(** ** The result of [get_duration] *)

(** For a stay that does not go back to an earlier date, [get_duration]
    raises nothing and returns the dict and the counters described above. *)
Lemma get_duration_ok then_ now :
  Datetime.valid then_ -> Datetime.valid now ->
  Datetime.toordinal then_ <= Datetime.toordinal now ->
  get_duration then_ now
  = inr (if Datetime.date_eqb (Datetime.date then_) (Datetime.date now)
         then overall_dict then_ now else split_dict then_ now,
         fst (elapsed_counts then_ now), snd (elapsed_counts then_ now)).
Proof.
  intros Ht Hn Hle.
  pose proof (valid_toordinal _ Ht) as Hot.
  pose proof (valid_toordinal _ Hn) as Hon.
  pose proof (overall_days_le _ _ Ht Hn) as Hdays.
  pose proof (date_eqb_toordinal _ _ Ht Hn) as Hdate.
  unfold get_duration.
  destruct (sub_spec now then_) as (E1 & E2 & _).
  fold (elapsed_us then_ now) in E1, E2.
  fold (overall_days then_ now) in E1. fold (overall_seconds then_ now) in E2.
  rewrite E1, E2. fold (overall_dict then_ now).
  rewrite elapsed_loop by (try assumption; lia).
  destruct (Datetime.date_eqb (Datetime.date then_) (Datetime.date now)) eqn:Ed.
  - reflexivity.
  - assert (Hlt : Datetime.toordinal then_ < Datetime.toordinal now).
    { destruct (Z.eq_dec (Datetime.toordinal then_) (Datetime.toordinal now)) as [E|NE];
        [apply Hdate in E; congruence|lia]. }
    cbn [negb].
    destruct (add_days then_ 1 Ht ltac:(lia)) as (nd & -> & Hnd & Hond & _).
    cbn [bind]. rewrite (new_midnight_minute nd Hnd). cbn [bind].
    unfold Datetime.sub at 1.
    unfold Datetime.toordinal at 1. cbn [Datetime.year Datetime.month Datetime.day].
    fold (Datetime.toordinal nd). rewrite Hond.
    change (Datetime.secs (Datetime.mk _ _ _ 0 1 0 0)) with 60.
    cbn [Datetime.microsecond].
    replace (Datetime.toordinal then_ + 1 - Datetime.toordinal then_) with 1 by lia.
    fold (first_day_seconds then_).
    reflexivity.
Qed.

Lemma get_duration_same_date then_ now :
  Datetime.valid then_ -> Datetime.valid now ->
  Datetime.date_eqb (Datetime.date then_) (Datetime.date now) = true ->
  get_duration then_ now
  = inr (overall_dict then_ now,
         fst (elapsed_counts then_ now), snd (elapsed_counts then_ now)).
Proof.
  intros Ht Hn Hd. rewrite get_duration_ok, Hd; try assumption; [reflexivity|].
  apply date_eqb_toordinal in Hd; try assumption. lia.
Qed.

Lemma get_duration_later_date then_ now :
  Datetime.valid then_ -> Datetime.valid now ->
  Datetime.leb then_ now = true ->
  Datetime.date_eqb (Datetime.date then_) (Datetime.date now) = false ->
  get_duration then_ now
  = inr (split_dict then_ now,
         fst (elapsed_counts then_ now), snd (elapsed_counts then_ now)).
Proof.
  intros Ht Hn Hle Hd. rewrite get_duration_ok, Hd; try assumption; [reflexivity|].
  now apply leb_toordinal.
Qed.

(** ** The result of [calculate_fee] and [get_parking_fee] *)

Lemma calculate_fee_same_day then_ now wd we tiw tow :
  calculate_fee (overall_dict then_ now) wd we tiw tow
  = inr (first_day_fee tiw (overall_seconds then_ now / 3600)
           (overall_seconds then_ now mod 3600 / 60)
         + elapsed_days_fee wd we + remaining_hours_fee tow None)%Q.
Proof. reflexivity. Qed.

Lemma calculate_fee_split then_ now wd we tiw tow :
  calculate_fee (split_dict then_ now) wd we tiw tow
  = inr (first_day_fee tiw (first_day_seconds then_ / 3600)
           (first_day_seconds then_ mod 3600 / 60)
         + elapsed_days_fee wd we
         + remaining_hours_fee tow
             (Some (Datetime.hour now, Datetime.minute now)))%Q.
Proof. reflexivity. Qed.

(** Whenever [calculate_fee] returns, the total is the sum of the three
    blocks. *)
Lemma calculate_fee_inv dict wc wec tiw tow fee :
  calculate_fee dict wc wec tiw tow = inr fee ->
  exists h m remaining,
    fee = (first_day_fee tiw h m + elapsed_days_fee wc wec
           + remaining_hours_fee tow remaining)%Q.
Proof.
  unfold calculate_fee. intros H.
  destruct (getitem dict "overall") as [e|ov]; [discriminate|]. cbn [bind] in H.
  destruct (getitem ov "hours") as [e|oh]; [discriminate|]. cbn [bind] in H.
  destruct (getitem ov "minutes") as [e|om]; [discriminate|]. cbn [bind] in H.
  destruct (unpack_split dict) as [e|[[[[fh fm] rh] rm]|]]; [discriminate|..];
    cbn [bind] in H; apply inr_inj in H; subst fee.
  - now exists fh, fm, (Some (rh, rm)).
  - now exists oh, om, None.
Qed.

Lemma get_parking_fee_ok time_in time_out :
  Datetime.valid time_in -> Datetime.valid time_out ->
  Datetime.leb time_in time_out = true ->
  get_parking_fee time_in time_out
  = inr (duration_label (overall_days time_in time_out)
           (overall_seconds time_in time_out / 3600)
           (overall_seconds time_in time_out mod 3600 / 60),
         total_fee_of time_in time_out).
Proof.
  intros Hi Ho Hle.
  pose proof (leb_toordinal _ _ Hi Ho Hle) as Hord.
  apply (leb_total_us _ _ Hi Ho) in Hle. apply overall_days_nonneg in Hle.
  unfold get_parking_fee.
  destruct (sub_spec time_out time_in) as (E1 & _).
  fold (elapsed_us time_in time_out) in E1. fold (overall_days time_in time_out) in E1.
  rewrite E1.
  replace (overall_days time_in time_out <? 0) with false
    by (symmetry; apply Z.ltb_ge; exact Hle).
  rewrite (get_duration_ok _ _ Hi Ho Hord). cbn [bind].
  rewrite !if_bool_id. fold (is_weekday time_in). fold (is_weekday time_out).
  unfold total_fee_of, billable.
  destruct (Datetime.date_eqb (Datetime.date time_in) (Datetime.date time_out)).
  - rewrite calculate_fee_same_day. reflexivity.
  - rewrite calculate_fee_split. reflexivity.
Qed.

Lemma get_parking_fee_invalid time_in time_out :
  Datetime.valid time_in -> Datetime.valid time_out ->
  Datetime.ltb time_out time_in = true ->
  get_parking_fee time_in time_out = inl TypeError.
Proof.
  intros Hi Ho Hlt. apply (ltb_total_us _ _ Ho Hi) in Hlt.
  unfold get_parking_fee.
  destruct (sub_spec time_out time_in) as (E1 & _). rewrite E1.
  replace (_ <? 0) with true; [reflexivity|].
  symmetry. apply Z.ltb_lt. Z.div_mod_to_equations. lia.
Qed.

(** ** The blocks of [calculate_fee] *)

Ltac decide_tests :=
  repeat match goal with
    | |- context [?a >? ?b] => destruct (Z.gtb_spec a b); try lia
    | |- context [?a <? ?b] => destruct (Z.ltb_spec a b); try lia
    | |- context [?a =? ?b] => destruct (Z.eqb_spec a b); try lia
    | |- context [?a >=? ?b] => destruct (Z.geb_spec a b); try lia
    end.

Section Caps.

Variables max_rate fee : Q.

Lemma check_max_rate_le : (check_max_rate max_rate fee <= max_rate)%Q.
Proof.
  unfold check_max_rate, Qgtb.
  destruct (Qle_bool fee max_rate) eqn:E; cbn [negb].
  - now apply Qle_bool_iff.
  - apply Qle_refl.
Qed.

Lemma check_max_rate_below :
  (fee <= max_rate)%Q -> check_max_rate max_rate fee = fee.
Proof.
  intros H. unfold check_max_rate, Qgtb.
  apply Qle_bool_iff in H. now rewrite H.
Qed.

Lemma check_max_rate_above :
  (max_rate < fee)%Q -> check_max_rate max_rate fee = max_rate.
Proof.
  intros H. unfold check_max_rate, Qgtb.
  destruct (Qle_bool fee max_rate) eqn:E; [|reflexivity].
  apply Qle_bool_iff in E. exfalso. apply (Qlt_not_le _ _ H E).
Qed.

End Caps.

Section Grace.

Variables (rate : Q) (hours minutes : Z) (fee : Q).

Lemma grace_period_charged :
  1 <= hours -> 5 < minutes ->
  grace_period rate hours minutes fee = (fee + rate)%Q.
Proof.
  intros Hh Hm. unfold grace_period, grace_period_minutes.
  decide_tests. reflexivity.
Qed.

Lemma grace_period_free :
  hours < 1 \/ minutes <= 5 ->
  grace_period rate hours minutes fee = fee.
Proof.
  intros H. unfold grace_period, grace_period_minutes.
  decide_tests; reflexivity.
Qed.

End Grace.

Lemma first_day_fee_le tiw h m :
  (first_day_fee tiw h m <= first_day_max_rate tiw)%Q.
Proof. apply check_max_rate_le. Qed.

Lemma remaining_hours_fee_le tow remaining :
  (remaining_hours_fee tow remaining <= remaining_max_rate tow)%Q.
Proof.
  destruct remaining as [[rh rm]|]; [apply check_max_rate_le|].
  destruct tow; discriminate.
Qed.

Create HintDb fees.
#[local] Hint Resolve first_day_fee_le remaining_hours_fee_le : fees.

(** * The properties *)

(** ** C1 *)

(** C1, counterexample: for the stay from Monday 2 October 2023, 08:00, to
    Wednesday 4 October 2023, 10:00, [get_parking_fee] returns a fee that is
    not 80. *)
Lemma monday_to_wednesday_not_80 :
  Datetime.weekday MONDAY_IN = 0 /\ Datetime.weekday WEDNESDAY_OUT = 2
  /\ exists fee,
       get_parking_fee MONDAY_IN WEDNESDAY_OUT = inr ("50 hours"%string, fee)
       /\ ~ (fee == 80)%Q.
Proof.
  split; [reflexivity|]. split; [reflexivity|].
  exists (total_fee_of MONDAY_IN WEDNESDAY_OUT).
  split; [now rewrite get_parking_fee_ok|].
  intros H. vm_compute in H. discriminate.
Qed.

(** C1 (corrected): for an entry on a Monday at 08:00 and an exit on the
    Wednesday of the same week at 10:00, [get_parking_fee] returns the total
    fee 55: the elapsed-day fee is 1 x 20 (only the Tuesday is an elapsed
    day), the first-day segment (16 hours and a minute) is capped at 20, and
    the remaining segment costs 10 x 1.5 = 15, below its cap. *)
Theorem monday_to_wednesday_fee time_in time_out :
  Datetime.valid time_in -> Datetime.valid time_out ->
  Datetime.weekday time_in = 0 ->
  Datetime.hour time_in = 8 -> Datetime.minute time_in = 0 ->
  Datetime.second time_in = 0 -> Datetime.microsecond time_in = 0 ->
  Datetime.toordinal time_out = Datetime.toordinal time_in + 2 ->
  Datetime.hour time_out = 10 -> Datetime.minute time_out = 0 ->
  Datetime.second time_out = 0 -> Datetime.microsecond time_out = 0 ->
  exists dict fee,
    get_duration time_in time_out = inr (dict, 1, 0)
    /\ get_parking_fee time_in time_out = inr ("50 hours"%string, fee)
    /\ fee = (first_day_fee true 16 1 + elapsed_days_fee 1 0
              + remaining_hours_fee true (Some (10, 0)%Z))%Q
    /\ (first_day_fee true 16 1 == 20)%Q
    /\ (elapsed_days_fee 1 0 == 1 * 20)%Q
    /\ (remaining_hours_fee true (Some (10, 0)%Z) == 10 * (3 # 2))%Q
    /\ (fee == 55)%Q.
Proof.
  intros Hi Ho Hw Hh Hm Hs Hu Hord Hh' Hm' Hs' Hu'.
  assert (He : elapsed_us time_in time_out = (2 * 86400 + 7200) * 1000000).
  { unfold elapsed_us, total_us, Datetime.secs. lia. }
  assert (Hle : Datetime.leb time_in time_out = true).
  { apply leb_total_us; try assumption. unfold elapsed_us in He. lia. }
  assert (Hne : Datetime.date_eqb (Datetime.date time_in)
                  (Datetime.date time_out) = false).
  { apply not_true_is_false. rewrite date_eqb_toordinal by assumption. lia. }
  assert (Hfd : first_day_seconds time_in = 57660).
  { unfold first_day_seconds, Datetime.secs. rewrite Hh, Hm, Hs, Hu.
    reflexivity. }
  assert (Hcounts : elapsed_counts time_in time_out = (1, 0)).
  { unfold elapsed_counts, overall_days. rewrite He.
    change (Z.to_nat _ - 1)%nat with 1%nat.
    unfold days_after, count, is_weekday_ordinal. cbn [seq map List.filter].
    rewrite is_weekend_ordinal_eq. unfold weekday_of_ordinal.
    unfold Datetime.weekday in Hw.
    replace ((Datetime.toordinal time_in + Z.of_nat 1 + 6) mod 7) with 1
      by (Z.div_mod_to_equations; lia).
    reflexivity. }
  assert (Hwi : is_weekday time_in = true).
  { unfold is_weekday. rewrite Hw. reflexivity. }
  assert (Hwo : is_weekday time_out = true).
  { unfold is_weekday, Datetime.weekday. rewrite Hord.
    unfold Datetime.weekday in Hw.
    replace ((Datetime.toordinal time_in + 2 + 6) mod 7) with 2
      by (Z.div_mod_to_equations; lia).
    reflexivity. }
  exists (split_dict time_in time_out). eexists.
  rewrite (get_duration_later_date _ _ Hi Ho Hle Hne), Hcounts.
  rewrite (get_parking_fee_ok _ _ Hi Ho Hle).
  unfold total_fee_of, billable, overall_days, overall_seconds.
  rewrite Hne, Hcounts, Hwi, Hwo, He, Hfd, Hh', Hm'.
  split; [reflexivity|]. split; [reflexivity|].
  repeat split; reflexivity.
Qed.

(** The corrected C1 applies to the stay from Monday 2 October 2023. *)
Lemma monday_to_wednesday_fee_witness :
  exists dict fee,
    get_duration MONDAY_IN WEDNESDAY_OUT = inr (dict, 1, 0)
    /\ get_parking_fee MONDAY_IN WEDNESDAY_OUT = inr ("50 hours"%string, fee)
    /\ fee = (first_day_fee true 16 1 + elapsed_days_fee 1 0
              + remaining_hours_fee true (Some (10, 0)%Z))%Q
    /\ (first_day_fee true 16 1 == 20)%Q
    /\ (elapsed_days_fee 1 0 == 1 * 20)%Q
    /\ (remaining_hours_fee true (Some (10, 0)%Z) == 10 * (3 # 2))%Q
    /\ (fee == 55)%Q.
Proof.
  apply (monday_to_wednesday_fee MONDAY_IN WEDNESDAY_OUT); reflexivity.
Defined.

(** ** C2 *)

(** C2 (the code departs from the claim): for the entry at 08:16:00 on
    6 October 2023 and an exit on the next day, the next midnight is 15 hours
    44 minutes after the entry, but [get_duration] returns a first day of 15
    hours 45 minutes: it measures up to 00:01 of the next day. *)
Theorem first_day_at_0816 :
  Datetime.leb ENTRY_0816 EXIT_NEXT_DAY = true
  /\ Timedelta.days (Datetime.sub NEXT_MIDNIGHT ENTRY_0816) = 0
  /\ Timedelta.seconds (Datetime.sub NEXT_MIDNIGHT ENTRY_0816)
     = 15 * 3600 + 44 * 60
  /\ exists dict wd we first_day,
       get_duration ENTRY_0816 EXIT_NEXT_DAY = inr (dict, wd, we)
       /\ dict !! "first_day" = Some first_day
       /\ first_day !! "hours" = Some 15
       /\ first_day !! "minutes" = Some 45.
Proof.
  split; [reflexivity|]. split; [reflexivity|]. split; [reflexivity|].
  exists (split_dict ENTRY_0816 EXIT_NEXT_DAY).
  exists (fst (elapsed_counts ENTRY_0816 EXIT_NEXT_DAY)).
  exists (snd (elapsed_counts ENTRY_0816 EXIT_NEXT_DAY)).
  exists {["hours" := first_day_seconds ENTRY_0816 / 3600;
           "minutes" := first_day_seconds ENTRY_0816 mod 3600 / 60]}.
  split; [apply get_duration_later_date; reflexivity|].
  split; [apply lookup_split_first_day|].
  rewrite lookup_hours, lookup_minutes. split; reflexivity.
Qed.

(** ** C3 *)

(** C3, counterexample: with the two default instants swapped, so that the
    exit is earlier than the entry, [get_duration] raises nothing and returns
    a result; the error comes from [get_parking_fee]. *)
Lemma get_duration_unchecked :
  Datetime.ltb TIME_IN TIME_OUT = true
  /\ (exists r, get_duration TIME_OUT TIME_IN = inr r)
  /\ (exists e, get_parking_fee TIME_OUT TIME_IN = inl e).
Proof.
  split; [reflexivity|]. split.
  - eexists. apply get_duration_same_date; reflexivity.
  - eexists. apply get_parking_fee_invalid; reflexivity.
Qed.

(** C3 (corrected): for every pair with the exit earlier than the entry,
    [get_parking_fee] fails with an exception raised by its own range check,
    which is not caught; for every pair with the exit not earlier than the
    entry it raises nothing.  The range check is made by [get_parking_fee]
    only: [get_duration] has none, and returns a result for every pair of
    instants of one date, whatever their order. *)
Theorem range_check time_in time_out :
  Datetime.valid time_in -> Datetime.valid time_out ->
  (Datetime.ltb time_out time_in = true ->
   exists e, get_parking_fee time_in time_out = inl e)
  /\ (Datetime.leb time_in time_out = true ->
      exists r, get_parking_fee time_in time_out = inr r)
  /\ (Datetime.date_eqb (Datetime.date time_in) (Datetime.date time_out) = true ->
      exists r, get_duration time_in time_out = inr r).
Proof.
  intros Hi Ho. repeat split.
  - intros H. eexists. now apply get_parking_fee_invalid.
  - intros H. eexists. now apply get_parking_fee_ok.
  - intros H. eexists. now apply get_duration_same_date.
Qed.

(** The corrected C3 applies to the default instants, swapped. *)
Lemma range_check_witness :
  (Datetime.ltb TIME_IN TIME_OUT = true ->
   exists e, get_parking_fee TIME_OUT TIME_IN = inl e)
  /\ (Datetime.leb TIME_OUT TIME_IN = true ->
      exists r, get_parking_fee TIME_OUT TIME_IN = inr r)
  /\ (Datetime.date_eqb (Datetime.date TIME_OUT) (Datetime.date TIME_IN) = true ->
      exists r, get_duration TIME_OUT TIME_IN = inr r).
Proof. apply (range_check TIME_OUT TIME_IN); reflexivity. Defined.

(** ** C4 *)

(** C4: for every entry not later than the exit, [get_duration] returns
    counters that classify exactly the calendar days entry.date + 1, ...,
    entry.date + (overall.days - 1) by day of the week, Saturday and Sunday
    as weekend and the others as weekday; the two counters add up to
    overall.days - 1 when overall.days >= 1 and are both 0 when
    overall.days = 0. *)
Theorem elapsed_day_counts then_ now :
  Datetime.valid then_ -> Datetime.valid now ->
  Datetime.leb then_ now = true ->
  exists dict overall days wd we,
    get_duration then_ now = inr (dict, wd, we)
    /\ dict !! "overall" = Some overall /\ overall !! "days" = Some days
    /\ days = (total_us now - total_us then_) / 86400000000
    /\ 0 <= days
    /\ wd = count is_weekday_ordinal (days_after then_ 1 (Z.to_nat days - 1))
    /\ we = count is_weekend_ordinal (days_after then_ 1 (Z.to_nat days - 1))
    /\ (1 <= days -> wd + we = days - 1)
    /\ (days = 0 -> wd = 0 /\ we = 0).
Proof.
  intros Ht Hn Hle.
  pose proof (leb_toordinal _ _ Ht Hn Hle) as Hord.
  apply (leb_total_us _ _ Ht Hn) in Hle. apply overall_days_nonneg in Hle.
  exists (if Datetime.date_eqb (Datetime.date then_) (Datetime.date now)
          then overall_dict then_ now else split_dict then_ now).
  eexists. exists (overall_days then_ now). do 2 eexists.
  split; [apply get_duration_ok; assumption|].
  split; [destruct (Datetime.date_eqb _ _); reflexivity|].
  split; [reflexivity|]. split; [reflexivity|]. split; [exact Hle|].
  unfold elapsed_counts. cbn [fst snd].
  split; [reflexivity|]. split; [reflexivity|].
  split.
  - intros H. rewrite count_split. unfold days_after.
    rewrite length_map, length_seq. lia.
  - intros ->. split; reflexivity.
Qed.

(** C4 applies to the stay from Monday to Wednesday: one elapsed day. *)
Lemma elapsed_day_counts_witness :
  exists dict wd we,
    get_duration MONDAY_IN WEDNESDAY_OUT = inr (dict, wd, we) /\ wd + we = 1.
Proof.
  destruct (elapsed_day_counts MONDAY_IN WEDNESDAY_OUT)
    as (dict & overall & days & wd & we & H & _ & _ & Ed & _ & _ & _ & Hsum & _);
    [reflexivity..|].
  exists dict, wd, we. split; [exact H|].
  rewrite Hsum; rewrite Ed; [reflexivity|discriminate].
Defined.

(** ** C5 *)

(** C5: for every duration and every combination of entry and exit day
    kinds, the first-segment fee never exceeds the first-day maximum (20 on a
    weekday entry, 40 on a weekend entry) and the remaining-segment fee never
    exceeds the exit-side maximum; each cap is applied to the fee that
    already includes the grace-period surcharge; and every total that
    [calculate_fee] returns is made of two such capped segments and the
    elapsed-day fee. *)
Theorem segment_fees_capped (time_in_weekday time_out_weekday : bool)
    (hours minutes : Z) (remaining : option (Z * Z)) :
  first_day_max_rate time_in_weekday = (if time_in_weekday then 20 else 40)%Q
  /\ remaining_max_rate time_out_weekday
     = (if time_out_weekday then 20 else 40)%Q
  /\ (first_day_fee time_in_weekday hours minutes
      <= first_day_max_rate time_in_weekday)%Q
  /\ (remaining_hours_fee time_out_weekday remaining
      <= remaining_max_rate time_out_weekday)%Q
  /\ first_day_fee time_in_weekday hours minutes
     = check_max_rate (first_day_max_rate time_in_weekday)
         (grace_period (first_day_subsequent_hours_rate time_in_weekday)
            hours minutes (hour_rate_fee time_in_weekday hours minutes))
  /\ (forall rh rm,
        remaining_hours_fee time_out_weekday (Some (rh, rm))
        = check_max_rate (remaining_max_rate time_out_weekday)
            (grace_period (remaining_subsequent_hours_rate time_out_weekday)
               rh rm
               (inject_Z rh
                * remaining_subsequent_hours_rate time_out_weekday)%Q))
  /\ (forall max_rate fee,
        (fee <= max_rate -> check_max_rate max_rate fee = fee)%Q
        /\ (max_rate < fee -> check_max_rate max_rate fee = max_rate)%Q)
  /\ (forall dict wc wec fee,
        calculate_fee dict wc wec time_in_weekday time_out_weekday = inr fee ->
        exists h m rem,
          fee = (first_day_fee time_in_weekday h m + elapsed_days_fee wc wec
                 + remaining_hours_fee time_out_weekday rem)%Q
          /\ (first_day_fee time_in_weekday h m
              <= first_day_max_rate time_in_weekday)%Q
          /\ (remaining_hours_fee time_out_weekday rem
              <= remaining_max_rate time_out_weekday)%Q).
Proof.
  split; [now destruct time_in_weekday|].
  split; [now destruct time_out_weekday|].
  split; [auto with fees|]. split; [auto with fees|].
  split; [reflexivity|]. split; [reflexivity|].
  split.
  - intros max_rate fee.
    split; [apply check_max_rate_below|apply check_max_rate_above].
  - intros dict wc wec fee H.
    destruct (calculate_fee_inv _ _ _ _ _ _ H) as (h & m & rem & ->).
    exists h, m, rem. auto with fees.
Qed.

(** ** C6 *)

Lemma lookup_overall_overall then_ now :
  overall_dict then_ now !! "overall"
  = Some {["days" := overall_days then_ now;
           "hours" := overall_seconds then_ now / 3600;
           "minutes" := overall_seconds then_ now mod 3600 / 60]}.
Proof. reflexivity. Qed.

Lemma lookup_dhm_hours (d h m : Z) :
  ({["days" := d; "hours" := h; "minutes" := m]} : gmap string Z) !! "hours"
  = Some h.
Proof. reflexivity. Qed.

Lemma lookup_dhm_minutes (d h m : Z) :
  ({["days" := d; "hours" := h; "minutes" := m]} : gmap string Z) !! "minutes"
  = Some m.
Proof. reflexivity. Qed.

(** C6: the first-segment fee that the program charges follows the hour
    tier.  For every entry not later than the exit, with hours and minutes
    those of the segment that [calculate_fee] prices first (the overall
    duration on one date, the first day otherwise): above 3 hours the tier is
    first_n_hours_rate + subsequent_hour_rate x (hours - 3); at exactly 3
    hours it is first_n_hours_rate; from 1 hour to less than 3 hours it is
    subsequent_hour_rate x hours; below 1 hour it is one
    subsequent_hour_rate when minutes > 15 and 0 otherwise; whenever
    hours >= 1 and minutes > 5 one more subsequent_hour_rate is added; the
    result, capped at the daily maximum, is the first-segment term of the
    fee that [calculate_fee] and [get_parking_fee] return. *)
Theorem hour_tiers time_in time_out :
  Datetime.valid time_in -> Datetime.valid time_out ->
  Datetime.leb time_in time_out = true ->
  let same_date :=
    Datetime.date_eqb (Datetime.date time_in) (Datetime.date time_out) in
  let time_in_weekday := Datetime.weekday time_in <? 5 in
  let time_out_weekday := Datetime.weekday time_out <? 5 in
  let first_n := (if time_in_weekday then 3 else 5)%Q in
  let rate := (if time_in_weekday then 3 # 2 else 2)%Q in
  let max_rate := (if time_in_weekday then 20 else 40)%Q in
  exists dict wd we segment hours minutes tier uncapped first label,
    get_duration time_in time_out = inr (dict, wd, we)
    /\ dict !! (if same_date then "overall" else "first_day")%string
       = Some segment
    /\ segment !! "hours" = Some hours
    /\ segment !! "minutes" = Some minutes
    /\ (3 < hours -> tier = (first_n + rate * inject_Z (hours - 3))%Q)
    /\ (hours = 3 -> tier = first_n)
    /\ (1 <= hours < 3 -> tier = (rate * inject_Z hours)%Q)
    /\ (hours < 1 -> 15 < minutes -> tier = rate)
    /\ (hours < 1 -> minutes <= 15 -> tier = 0%Q)
    /\ (1 <= hours -> 5 < minutes -> uncapped = (tier + rate)%Q)
    /\ (hours < 1 \/ minutes <= 5 -> uncapped = tier)
    /\ ((uncapped <= max_rate)%Q -> first = uncapped)
    /\ ((max_rate < uncapped)%Q -> first = max_rate)
    /\ (let remaining :=
          if same_date then None
          else Some (Datetime.hour time_out, Datetime.minute time_out) in
        let total_fee :=
          (first + elapsed_days_fee wd we
           + remaining_hours_fee time_out_weekday remaining)%Q in
        calculate_fee dict wd we time_in_weekday time_out_weekday
        = inr total_fee
        /\ get_parking_fee time_in time_out = inr (label, total_fee)).
Proof.
  intros Hi Ho Hle. cbv zeta.
  pose proof (leb_toordinal _ _ Hi Ho Hle) as Hord.
  pose proof (get_duration_ok _ _ Hi Ho Hord) as Hdur.
  pose proof (get_parking_fee_ok _ _ Hi Ho Hle) as Hfee.
  unfold total_fee_of, billable, is_weekday in Hfee.
  set (tiw := Datetime.weekday time_in <? 5) in *.
  set (tow := Datetime.weekday time_out <? 5) in *.
  assert (Htier : forall hours minutes,
    let tier := hour_rate_fee tiw hours minutes in
    (3 < hours ->
     tier = ((if tiw then 3 else 5) + (if tiw then 3 # 2 else 2)
                                      * inject_Z (hours - 3))%Q)
    /\ (hours = 3 -> tier = (if tiw then 3 else 5)%Q)
    /\ (1 <= hours < 3 ->
        tier = ((if tiw then 3 # 2 else 2) * inject_Z hours)%Q)
    /\ (hours < 1 -> 15 < minutes -> tier = (if tiw then 3 # 2 else 2)%Q)
    /\ (hours < 1 -> minutes <= 15 -> tier = 0%Q)).
  { intros hours minutes. cbv zeta.
    unfold hour_rate_fee, first_n_hours, free_of_charge_minutes.
    repeat split; intros; decide_tests; now destruct tiw. }
  assert (Hgrace : forall hours minutes tier,
    let uncapped :=
      grace_period (first_day_subsequent_hours_rate tiw) hours minutes tier in
    (1 <= hours -> 5 < minutes ->
     uncapped = (tier + (if tiw then 3 # 2 else 2))%Q)
    /\ (hours < 1 \/ minutes <= 5 -> uncapped = tier)).
  { intros hours minutes tier. cbv zeta. split.
    - intros. rewrite grace_period_charged by assumption. now destruct tiw.
    - intros. now apply grace_period_free. }
  assert (Hcap : forall uncapped,
    let first := check_max_rate (first_day_max_rate tiw) uncapped in
    ((uncapped <= (if tiw then 20 else 40))%Q -> first = uncapped)
    /\ (((if tiw then 20 else 40) < uncapped)%Q ->
        first = (if tiw then 20 else 40)%Q)).
  { intros uncapped. cbv zeta. split; intros H.
    - apply check_max_rate_below. now destruct tiw.
    - rewrite check_max_rate_above by now destruct tiw. now destruct tiw. }
  destruct (Datetime.date_eqb (Datetime.date time_in) (Datetime.date time_out)).
  - set (hours := overall_seconds time_in time_out / 3600) in *.
    set (minutes := overall_seconds time_in time_out mod 3600 / 60) in *.
    exists (overall_dict time_in time_out).
    exists (fst (elapsed_counts time_in time_out)),
      (snd (elapsed_counts time_in time_out)).
    exists {["days" := overall_days time_in time_out;
             "hours" := hours; "minutes" := minutes]}.
    exists hours, minutes, (hour_rate_fee tiw hours minutes).
    exists (grace_period (first_day_subsequent_hours_rate tiw) hours minutes
              (hour_rate_fee tiw hours minutes)).
    exists (first_day_fee tiw hours minutes). eexists.
    split; [exact Hdur|]. split; [apply lookup_overall_overall|].
    split; [apply lookup_dhm_hours|]. split; [apply lookup_dhm_minutes|].
    destruct (Htier hours minutes) as (T1 & T2 & T3 & T4 & T5).
    destruct (Hgrace hours minutes (hour_rate_fee tiw hours minutes)) as (G1 & G2).
    destruct (Hcap (grace_period (first_day_subsequent_hours_rate tiw) hours
                      minutes (hour_rate_fee tiw hours minutes))) as (C1 & C2).
    repeat (split; [assumption|]).
    split; [apply calculate_fee_same_day|exact Hfee].
  - set (hours := first_day_seconds time_in / 3600) in *.
    set (minutes := first_day_seconds time_in mod 3600 / 60) in *.
    exists (split_dict time_in time_out).
    exists (fst (elapsed_counts time_in time_out)),
      (snd (elapsed_counts time_in time_out)).
    exists {["hours" := hours; "minutes" := minutes]}.
    exists hours, minutes, (hour_rate_fee tiw hours minutes).
    exists (grace_period (first_day_subsequent_hours_rate tiw) hours minutes
              (hour_rate_fee tiw hours minutes)).
    exists (first_day_fee tiw hours minutes). eexists.
    split; [exact Hdur|]. split; [apply lookup_split_first_day|].
    split; [apply lookup_hours|]. split; [apply lookup_minutes|].
    destruct (Htier hours minutes) as (T1 & T2 & T3 & T4 & T5).
    destruct (Hgrace hours minutes (hour_rate_fee tiw hours minutes)) as (G1 & G2).
    destruct (Hcap (grace_period (first_day_subsequent_hours_rate tiw) hours
                      minutes (hour_rate_fee tiw hours minutes))) as (C1 & C2).
    repeat (split; [assumption|]).
    split; [apply calculate_fee_split|exact Hfee].
Qed.

(** C6 applies to the stay from Monday 08:00 to Wednesday 10:00, whose first
    segment is the first day. *)
Lemma hour_tiers_witness :
  exists dict wd we segment,
    get_duration MONDAY_IN WEDNESDAY_OUT = inr (dict, wd, we)
    /\ dict !! "first_day" = Some segment.
Proof.
  destruct (hour_tiers MONDAY_IN WEDNESDAY_OUT)
    as (dict & wd & we & segment & hours & minutes & tier & uncapped & first
        & label & H & Hseg & _); [reflexivity..|].
  exists dict, wd, we, segment. split; [exact H|exact Hseg].
Defined.

(** ** C7 *)

(** C7: when the exit is on a later date than the entry, the remaining
    segment is the exit's wall-clock hour and minute, and its fee is
    remaining.hours x the exit-side subsequent_hour_rate, plus one more such
    rate when remaining.hours >= 1 and remaining.minutes > 5, capped at the
    exit-side maximum; when entry and exit are on the same date there is no
    remaining segment and its fee is 0. *)
Theorem remaining_segment then_ now :
  Datetime.valid then_ -> Datetime.valid now ->
  Datetime.leb then_ now = true ->
  exists dict wd we,
    get_duration then_ now = inr (dict, wd, we)
    /\ (Datetime.date_eqb (Datetime.date then_) (Datetime.date now) = false ->
        dict !! "remaining"
        = Some {["hours" := Datetime.hour now;
                 "minutes" := Datetime.minute now]}
        /\ exists fh fm,
             unpack_split dict
             = inr (Some (fh, fm, Datetime.hour now, Datetime.minute now))
             /\ forall tiw tow,
                  calculate_fee dict wd we tiw tow
                  = inr (first_day_fee tiw fh fm + elapsed_days_fee wd we
                         + remaining_hours_fee tow
                             (Some (Datetime.hour now, Datetime.minute now)))%Q)
    /\ (Datetime.date_eqb (Datetime.date then_) (Datetime.date now) = true ->
        dict !! "remaining" = None
        /\ unpack_split dict = inr None
        /\ exists h m, forall tiw tow,
             calculate_fee dict wd we tiw tow
             = inr (first_day_fee tiw h m + elapsed_days_fee wd we
                    + remaining_hours_fee tow None)%Q)
    /\ (forall tow, remaining_hours_fee tow None = 0%Q)
    /\ (forall tow rh rm,
          let rate := remaining_subsequent_hours_rate tow in
          let cap := check_max_rate (remaining_max_rate tow) in
          rate = (if tow then 3 # 2 else 2)%Q
          /\ remaining_max_rate tow = (if tow then 20 else 40)%Q
          /\ (1 <= rh -> 5 < rm ->
              remaining_hours_fee tow (Some (rh, rm))
              = cap (inject_Z rh * rate + rate)%Q)
          /\ (rh < 1 \/ rm <= 5 ->
              remaining_hours_fee tow (Some (rh, rm))
              = cap (inject_Z rh * rate)%Q)
          /\ (forall fee, (fee <= remaining_max_rate tow)%Q -> cap fee = fee)
          /\ (forall fee, (remaining_max_rate tow < fee)%Q ->
                          cap fee = remaining_max_rate tow)).
Proof.
  intros Ht Hn Hle.
  exists (if Datetime.date_eqb (Datetime.date then_) (Datetime.date now)
          then overall_dict then_ now else split_dict then_ now).
  exists (fst (elapsed_counts then_ now)), (snd (elapsed_counts then_ now)).
  split; [apply get_duration_ok; try assumption; now apply leb_toordinal|].
  split; [|split; [|split]].
  - intros ->. split; [apply lookup_split_remaining|].
    do 2 eexists. split; [apply unpack_split_split|].
    intros. apply calculate_fee_split.
  - intros ->. split; [apply lookup_overall_remaining|].
    split; [apply unpack_split_overall|].
    do 2 eexists. intros. apply calculate_fee_same_day.
  - reflexivity.
  - intros tow rh rm. cbv zeta.
    split; [now destruct tow|]. split; [now destruct tow|].
    split; [|split; [|split]].
    + intros H1 H2. unfold remaining_hours_fee.
      now rewrite grace_period_charged.
    + intros H. unfold remaining_hours_fee. now rewrite grace_period_free.
    + apply check_max_rate_below.
    + apply check_max_rate_above.
Qed.

(** C7 applies to the stay from 6 October 08:16 to 7 October 08:27. *)
Lemma remaining_segment_witness :
  exists dict wd we,
    get_duration ENTRY_0816 EXIT_NEXT_DAY = inr (dict, wd, we)
    /\ dict !! "remaining" = Some {["hours" := 8; "minutes" := 27]}.
Proof.
  destruct (remaining_segment ENTRY_0816 EXIT_NEXT_DAY) as (dict & wd & we & H & Hsplit & _);
    [reflexivity..|].
  exists dict, wd, we. split; [exact H|]. apply Hsplit. reflexivity.
Defined.

(** ** C8 *)

(** C8: for every entry not later than the exit, the overall duration is
    normalised: days >= 0, hours < 24 and minutes < 60, where days is the
    integral day count of the elapsed time, hours is the remaining seconds
    floor-divided by 3600 and minutes is the remainder floor-divided by 60;
    what is dropped is less than a minute. *)
Theorem overall_normalized then_ now :
  Datetime.valid then_ -> Datetime.valid now ->
  Datetime.leb then_ now = true ->
  exists dict wd we overall days hours minutes,
    get_duration then_ now = inr (dict, wd, we)
    /\ dict !! "overall" = Some overall
    /\ overall !! "days" = Some days
    /\ overall !! "hours" = Some hours
    /\ overall !! "minutes" = Some minutes
    /\ 0 <= days /\ 0 <= hours < 24 /\ 0 <= minutes < 60
    /\ (let elapsed := total_us now - total_us then_ in
        let remaining_seconds := elapsed mod 86400000000 / 1000000 in
        days = elapsed / 86400000000
        /\ hours = remaining_seconds / 3600
        /\ minutes = remaining_seconds mod 3600 / 60
        /\ exists residue,
             0 <= residue < 60000000
             /\ elapsed
                = ((days * 24 + hours) * 60 + minutes) * 60000000 + residue).
Proof.
  intros Ht Hn Hle.
  pose proof (leb_toordinal _ _ Ht Hn Hle) as Hord.
  apply (leb_total_us _ _ Ht Hn) in Hle.
  exists (if Datetime.date_eqb (Datetime.date then_) (Datetime.date now)
          then overall_dict then_ now else split_dict then_ now).
  exists (fst (elapsed_counts then_ now)), (snd (elapsed_counts then_ now)).
  exists {["days" := overall_days then_ now;
           "hours" := overall_seconds then_ now / 3600;
           "minutes" := overall_seconds then_ now mod 3600 / 60]}.
  exists (overall_days then_ now), (overall_seconds then_ now / 3600),
    (overall_seconds then_ now mod 3600 / 60).
  split; [apply get_duration_ok; assumption|].
  split; [destruct (Datetime.date_eqb _ _); reflexivity|].
  split; [reflexivity|]. split; [reflexivity|]. split; [reflexivity|].
  unfold overall_days, overall_seconds, elapsed_us. cbv zeta.
  set (e := total_us now - total_us then_).
  assert (0 <= e) by (subst e; lia). clearbody e.
  split; [Z.div_mod_to_equations; lia|].
  split; [Z.div_mod_to_equations; lia|].
  split; [Z.div_mod_to_equations; lia|].
  split; [reflexivity|]. split; [reflexivity|]. split; [reflexivity|].
  exists (e mod 60000000).
  Z.div_mod_to_equations. lia.
Qed.

(** C8 applies to the default stay: 0 days, 0 hours, 11 minutes. *)
Lemma overall_normalized_witness :
  exists dict wd we overall,
    get_duration TIME_IN TIME_OUT = inr (dict, wd, we)
    /\ dict !! "overall" = Some overall
    /\ overall !! "days" = Some 0
    /\ overall !! "hours" = Some 0
    /\ overall !! "minutes" = Some 11.
Proof.
  destruct (overall_normalized TIME_IN TIME_OUT)
    as (dict & wd & we & overall & days & hours & minutes & H & Ho & Hd & Hh & Hm
        & _ & _ & _ & Ed & Eh & Em & _); [reflexivity..|].
  exists dict, wd, we, overall.
  split; [exact H|]. split; [exact Ho|].
  rewrite Hd, Hh, Hm, Ed, Eh, Em. repeat split; reflexivity.
Defined.

(** ** C9 *)

(** C9: for every entry not later than the exit, with
    total_hours = overall.days x 24 + overall.hours, the label returned by
    [get_parking_fee] is "H hours M minutes" (H = overall.hours,
    M = overall.minutes) when 1 <= total_hours < 24, "M minutes" when
    total_hours < 1, and "H hours" with H = total_hours when
    total_hours >= 24. *)
Theorem duration_label_cases time_in time_out :
  Datetime.valid time_in -> Datetime.valid time_out ->
  Datetime.leb time_in time_out = true ->
  exists dict wd we overall days hours minutes label fee,
    get_duration time_in time_out = inr (dict, wd, we)
    /\ dict !! "overall" = Some overall
    /\ overall !! "days" = Some days
    /\ overall !! "hours" = Some hours
    /\ overall !! "minutes" = Some minutes
    /\ get_parking_fee time_in time_out = inr (label, fee)
    /\ (let total_hours := days * 24 + hours in
        (1 <= total_hours < 24 ->
         label = (str hours ++ " hours " ++ str minutes ++ " minutes")%string)
        /\ (total_hours < 1 -> label = (str minutes ++ " minutes")%string)
        /\ (24 <= total_hours -> label = (str total_hours ++ " hours")%string)).
Proof.
  intros Hi Ho Hle.
  pose proof (leb_toordinal _ _ Hi Ho Hle) as Hord.
  exists (if Datetime.date_eqb (Datetime.date time_in) (Datetime.date time_out)
          then overall_dict time_in time_out else split_dict time_in time_out).
  exists (fst (elapsed_counts time_in time_out)),
    (snd (elapsed_counts time_in time_out)).
  exists {["days" := overall_days time_in time_out;
           "hours" := overall_seconds time_in time_out / 3600;
           "minutes" := overall_seconds time_in time_out mod 3600 / 60]}.
  exists (overall_days time_in time_out),
    (overall_seconds time_in time_out / 3600),
    (overall_seconds time_in time_out mod 3600 / 60).
  do 2 eexists.
  split; [apply get_duration_ok; assumption|].
  split; [destruct (Datetime.date_eqb _ _); reflexivity|].
  split; [reflexivity|]. split; [reflexivity|]. split; [reflexivity|].
  split; [apply get_parking_fee_ok; assumption|].
  cbv zeta. unfold duration_label.
  set (total_hours := overall_days time_in time_out * 24
                      + overall_seconds time_in time_out / 3600).
  clearbody total_hours.
  repeat split; intros H.
  - replace ((1 <=? total_hours) && (total_hours <? 24)) with true; [reflexivity|].
    symmetry. apply andb_true_iff. rewrite Z.leb_le, Z.ltb_lt. lia.
  - replace (1 <=? total_hours) with false by (symmetry; apply Z.leb_gt; lia).
    replace (total_hours <? 1) with true by (symmetry; apply Z.ltb_lt; lia).
    reflexivity.
  - replace (total_hours <? 24) with false by (symmetry; apply Z.ltb_ge; lia).
    rewrite andb_false_r.
    replace (total_hours <? 1) with false by (symmetry; apply Z.ltb_ge; lia).
    reflexivity.
Qed.

(** C9 applies to the default stay. *)
Lemma duration_label_cases_witness :
  exists label fee, get_parking_fee TIME_IN TIME_OUT = inr (label, fee).
Proof.
  destruct (duration_label_cases TIME_IN TIME_OUT)
    as (dict & wd & we & overall & days & hours & minutes & label & fee
        & _ & _ & _ & _ & _ & Hfee & _); [reflexivity..|].
  exists label, fee. exact Hfee.
Defined.

(** The default stay of the script: 11 minutes, no fee. *)
Example default_scenario :
  get_parking_fee TIME_IN TIME_OUT = inr ("11 minutes"%string, 0%Q).
Proof. vm_compute. reflexivity. Qed.

(** ** C10 *)

(** C10: when the exit equals the entry, [get_parking_fee] raises nothing
    and returns the label "0 minutes" with the fee 0; [get_duration] returns
    a dict without first_day and remaining, and both counters are 0. *)
Theorem zero_length_stay t :
  Datetime.valid t ->
  get_parking_fee t t = inr ("0 minutes"%string, 0%Q)
  /\ exists dict,
       get_duration t t = inr (dict, 0, 0)
       /\ dict !! "first_day" = None /\ dict !! "remaining" = None.
Proof.
  intros Ht.
  assert (Hle : Datetime.leb t t = true).
  { apply leb_total_us; try assumption. lia. }
  assert (Hd : Datetime.date_eqb (Datetime.date t) (Datetime.date t) = true).
  { now apply date_eqb_toordinal. }
  assert (He : elapsed_us t t = 0) by (unfold elapsed_us; lia).
  assert (Hc : elapsed_counts t t = (0, 0)).
  { unfold elapsed_counts, overall_days. rewrite He. reflexivity. }
  split.
  - rewrite get_parking_fee_ok by assumption. f_equal.
    unfold total_fee_of, billable, overall_days, overall_seconds.
    rewrite Hd, Hc, He. cbn [fst snd].
    destruct (is_weekday t); reflexivity.
  - exists (overall_dict t t).
    rewrite get_duration_same_date, Hc by assumption.
    split; [reflexivity|].
    split; [apply lookup_overall_first_day|apply lookup_overall_remaining].
Qed.

(** C10 applies to the default entry. *)
Lemma zero_length_stay_witness :
  get_parking_fee TIME_IN TIME_IN = inr ("0 minutes"%string, 0%Q).
Proof. apply (zero_length_stay TIME_IN). reflexivity. Defined.

(** * Further properties of the script *)

(** ** Auxiliary facts *)

Lemma unpack_split_total (dict : duration_dict_t) :
  exists o, unpack_split dict = inr o.
Proof.
  unfold unpack_split, try_except_KeyError, getitem, bind, ret, raise.
  destruct (dict !! "first_day") as [fd|]; [|eauto].
  destruct (fd !! "hours"); [|eauto].
  destruct (fd !! "minutes"); [|eauto].
  destruct (dict !! "remaining") as [rem|]; [|eauto].
  destruct (rem !! "hours"); [|eauto].
  destruct (rem !! "minutes"); eauto.
Qed.

Lemma unpack_split_partial (dict : duration_dict_t) :
  dict !! "first_day" = None \/ dict !! "remaining" = None ->
  unpack_split dict = inr None.
Proof.
  intros H.
  unfold unpack_split, try_except_KeyError, getitem, bind, ret, raise.
  destruct (dict !! "first_day") as [fd|]; [|reflexivity].
  destruct (fd !! "hours"); [|reflexivity].
  destruct (fd !! "minutes"); [|reflexivity].
  destruct H as [H|H]; [discriminate|]. rewrite H. reflexivity.
Qed.

Lemma inject_Z_nonneg z : 0 <= z -> (0 <= inject_Z z)%Q.
Proof. intros H. change 0%Q with (inject_Z 0). now rewrite <- Zle_Qle. Qed.

Lemma check_max_rate_nonneg max_rate fee :
  (0 <= max_rate)%Q -> (0 <= fee)%Q -> (0 <= check_max_rate max_rate fee)%Q.
Proof. intros Hm Hf. unfold check_max_rate. now destruct (Qgtb fee max_rate). Qed.

Lemma grace_period_nonneg rate hours minutes fee :
  (0 <= rate)%Q -> (0 <= fee)%Q -> (0 <= grace_period rate hours minutes fee)%Q.
Proof.
  intros Hr Hf. unfold grace_period.
  destruct (hours >=? 1); [|exact Hf].
  destruct (minutes >? grace_period_minutes); [|exact Hf]. lra.
Qed.

Lemma rates_pos b :
  (0 < first_n_hours_rate b)%Q /\ (0 < first_day_subsequent_hours_rate b)%Q
  /\ (0 < first_day_max_rate b)%Q /\ (0 < remaining_subsequent_hours_rate b)%Q
  /\ (0 < remaining_max_rate b)%Q
  /\ (first_day_max_rate b <= 40)%Q /\ (remaining_max_rate b <= 40)%Q.
Proof. destruct b; repeat split; try reflexivity; discriminate. Qed.

Lemma hour_rate_fee_nonneg tiw h m : (0 <= hour_rate_fee tiw h m)%Q.
Proof.
  destruct (rates_pos tiw) as (Hn & Hr & _).
  unfold hour_rate_fee, first_n_hours, free_of_charge_minutes.
  decide_tests.
  all: try lra; try (exfalso; lia).
  all: try (pose proof (inject_Z_nonneg (h - 3) ltac:(lia)); nra).
  all: pose proof (inject_Z_nonneg h ltac:(lia)); nra.
Qed.

Lemma first_day_fee_nonneg tiw h m : (0 <= first_day_fee tiw h m)%Q.
Proof.
  destruct (rates_pos tiw) as (Hn & Hr & Hmax & _).
  unfold first_day_fee. apply check_max_rate_nonneg; [lra|].
  apply grace_period_nonneg; [lra|]. apply hour_rate_fee_nonneg.
Qed.

Lemma remaining_hours_fee_nonneg tow remaining :
  match remaining with Some (rh, _) => 0 <= rh | None => True end ->
  (0 <= remaining_hours_fee tow remaining)%Q.
Proof.
  destruct (rates_pos tow) as (_ & _ & _ & Hr & Hmax & _).
  destruct remaining as [[rh rm]|]; [|discriminate].
  intros H. unfold remaining_hours_fee.
  apply check_max_rate_nonneg; [lra|]. apply grace_period_nonneg; [lra|].
  pose proof (inject_Z_nonneg rh H). nra.
Qed.

(** The guard of "Calculate elapsed day rate" does not change the amount. *)
Lemma elapsed_days_fee_eq wc wec :
  (elapsed_days_fee wc wec == inject_Z wc * 20 + inject_Z wec * 40)%Q.
Proof.
  unfold elapsed_days_fee, weekday_max_charge_per_day, weekend_max_charge_per_day.
  destruct (Z.eqb_spec wc 0) as [->|]; destruct (Z.eqb_spec wec 0) as [->|];
    cbn [negb orb]; try reflexivity.
Qed.

Lemma count_nonneg p l : 0 <= count p l.
Proof. unfold count. lia. Qed.

Lemma count_app p l1 l2 : count p (l1 ++ l2) = count p l1 + count p l2.
Proof. unfold count. rewrite List.filter_app, length_app. lia. Qed.

Lemma elapsed_counts_bounds then_ now :
  0 <= overall_days then_ now ->
  0 <= fst (elapsed_counts then_ now) /\ 0 <= snd (elapsed_counts then_ now)
  /\ fst (elapsed_counts then_ now) + snd (elapsed_counts then_ now)
     <= overall_days then_ now.
Proof.
  intros H. unfold elapsed_counts. cbn [fst snd].
  rewrite count_split. unfold days_after. rewrite length_map, length_seq.
  split; [apply count_nonneg|]. split; [apply count_nonneg|]. lia.
Qed.

Lemma elapsed_counts_zero then_ now :
  overall_days then_ now <= 1 -> elapsed_counts then_ now = (0, 0).
Proof.
  intros H. unfold elapsed_counts.
  replace (Z.to_nat (overall_days then_ now) - 1)%nat with 0%nat by lia.
  reflexivity.
Qed.

Lemma same_date_elapsed then_ now :
  Datetime.valid then_ -> Datetime.valid now ->
  Datetime.leb then_ now = true ->
  Datetime.date_eqb (Datetime.date then_) (Datetime.date now) = true ->
  0 <= elapsed_us then_ now < 86400000000.
Proof.
  intros Ht Hn Hle Hd.
  apply (leb_total_us _ _ Ht Hn) in Hle.
  apply (date_eqb_toordinal _ _ Ht Hn) in Hd.
  pose proof (valid_secs _ Ht). pose proof (valid_secs _ Hn).
  apply valid_fields in Ht, Hn.
  unfold elapsed_us. unfold total_us in *. lia.
Qed.

Lemma first_day_fee_free tiw m : m <= 15 -> first_day_fee tiw 0 m = 0%Q.
Proof.
  intros H. unfold first_day_fee, hour_rate_fee, grace_period.
  cbn [Z.gtb Z.eqb Z.ltb Z.geb Z.compare first_n_hours].
  unfold free_of_charge_minutes.
  replace (m >? 15) with false by (symmetry; rewrite Z.gtb_ltb; apply Z.ltb_ge; lia).
  now destruct tiw.
Qed.

Lemma add_days_overflow d i :
  Datetime.valid d ->
  ~ (1 <= Datetime.toordinal d + i <= MAXORDINAL) ->
  Datetime.add d (Timedelta.new i 0 0) = inl OverflowError.
Proof.
  intros Hd Hi.
  pose proof (valid_secs d Hd) as Hs.
  pose proof (valid_fields d Hd) as (_ & Hh & Hm & Hse & Hu).
  unfold Datetime.add.
  rewrite (timedelta_new_small (Datetime.toordinal d)) by lia.
  rewrite (timedelta_new_small i 0 0) by lia.
  unfold Timedelta.add.
  cbn [Timedelta.days Timedelta.seconds Timedelta.microseconds].
  rewrite !Z.add_0_r, timedelta_new_small by lia.
  cbn [Timedelta.days Timedelta.seconds Timedelta.microseconds].
  replace ((0 <? Datetime.toordinal d + i)
           && (Datetime.toordinal d + i <=? MAXORDINAL)) with false;
    [reflexivity|].
  symmetry. apply andb_false_iff. rewrite Z.ltb_ge, Z.leb_gt. lia.
Qed.

Lemma last_day_toordinal d :
  Datetime.valid d ->
  Datetime.toordinal d = MAXORDINAL <-> Datetime.date d = (9999, 12, 31).
Proof.
  intros Hd.
  pose proof (valid_fields d Hd) as (_ & Hh & Hm & Hs & Hu).
  set (last := Datetime.mk 9999 12 31 (Datetime.hour d) (Datetime.minute d)
                 (Datetime.second d) (Datetime.microsecond d)).
  assert (Hl : Datetime.valid last).
  { apply valid_intro; cbn; try assumption. repeat split; discriminate. }
  pose proof (date_eqb_toordinal d last Hd Hl) as H.
  change (Datetime.toordinal last) with MAXORDINAL in H.
  rewrite <- H. unfold Datetime.date_eqb, Datetime.date. cbn.
  rewrite !andb_true_iff, !Z.eqb_eq. split.
  - intros [[-> ->] ->]. reflexivity.
  - intros E. injection E as -> -> ->. auto.
Qed.

(** [get_duration] for any two instants, in any order, as long as the day
    after [then_] exists when it is needed. *)
Lemma get_duration_any_order then_ now :
  Datetime.valid then_ -> Datetime.valid now ->
  Datetime.date_eqb (Datetime.date then_) (Datetime.date now) = true
  \/ Datetime.toordinal then_ < MAXORDINAL ->
  get_duration then_ now
  = inr (if Datetime.date_eqb (Datetime.date then_) (Datetime.date now)
         then overall_dict then_ now else split_dict then_ now,
         fst (elapsed_counts then_ now), snd (elapsed_counts then_ now)).
Proof.
  intros Ht Hn Hcase.
  pose proof (valid_toordinal _ Ht) as Hot.
  pose proof (valid_toordinal _ Hn) as Hon.
  pose proof (overall_days_le _ _ Ht Hn) as Hdays.
  unfold get_duration.
  destruct (sub_spec now then_) as (E1 & E2 & _).
  fold (elapsed_us then_ now) in E1, E2.
  fold (overall_days then_ now) in E1. fold (overall_seconds then_ now) in E2.
  rewrite E1, E2. fold (overall_dict then_ now).
  rewrite elapsed_loop by (try assumption; lia).
  destruct (Datetime.date_eqb (Datetime.date then_) (Datetime.date now)) eqn:Ed.
  - reflexivity.
  - destruct Hcase as [Hcase|Hlt]; [discriminate|].
    cbn [negb].
    destruct (add_days then_ 1 Ht ltac:(lia)) as (nd & -> & Hnd & Hond & _).
    cbn [bind]. rewrite (new_midnight_minute nd Hnd). cbn [bind].
    unfold Datetime.sub at 1.
    unfold Datetime.toordinal at 1.
    cbn [Datetime.year Datetime.month Datetime.day].
    fold (Datetime.toordinal nd). rewrite Hond.
    change (Datetime.secs (Datetime.mk _ _ _ 0 1 0 0)) with 60.
    cbn [Datetime.microsecond].
    replace (Datetime.toordinal then_ + 1 - Datetime.toordinal then_) with 1
      by lia.
    fold (first_day_seconds then_).
    reflexivity.
Qed.

Lemma get_duration_overflow then_ now :
  Datetime.valid then_ -> Datetime.valid now ->
  Datetime.date_eqb (Datetime.date then_) (Datetime.date now) = false ->
  Datetime.toordinal then_ = MAXORDINAL ->
  get_duration then_ now = inl OverflowError.
Proof.
  intros Ht Hn Hd Hmax. unfold get_duration. rewrite Hd. cbn [negb].
  rewrite add_days_overflow by (try assumption; lia). reflexivity.
Qed.

(** Seven consecutive days hold five weekdays and a weekend. *)
Lemma week_counts o :
  count is_weekday_ordinal [o; o + 1; o + 2; o + 3; o + 4; o + 5; o + 6] = 5
  /\ count is_weekend_ordinal [o; o + 1; o + 2; o + 3; o + 4; o + 5; o + 6] = 2.
Proof.
  unfold count, is_weekday_ordinal. cbn [List.filter].
  rewrite !is_weekend_ordinal_eq. unfold weekday_of_ordinal.
  assert (C : (o + 6) mod 7 = 0 \/ (o + 6) mod 7 = 1 \/ (o + 6) mod 7 = 2
              \/ (o + 6) mod 7 = 3 \/ (o + 6) mod 7 = 4 \/ (o + 6) mod 7 = 5
              \/ (o + 6) mod 7 = 6).
  { pose proof (Z.mod_pos_bound (o + 6) 7). lia. }
  assert (S : forall j, (o + j + 6) mod 7 = ((o + 6) mod 7 + j) mod 7).
  { intros j. rewrite Zplus_mod_idemp_l. f_equal. lia. }
  rewrite !S.
  repeat (destruct C as [C | C]; [rewrite C; split; reflexivity|]).
  rewrite C. split; reflexivity.
Qed.

Lemma days_after_week then_ s :
  days_after then_ s 7
  = let o := Datetime.toordinal then_ + Z.of_nat s in
    [o; o + 1; o + 2; o + 3; o + 4; o + 5; o + 6].
Proof.
  unfold days_after. cbn [seq map]. cbv zeta.
  repeat (f_equal; try lia).
Qed.

Lemma days_after_app then_ s n k :
  days_after then_ s (n + k)
  = days_after then_ s n ++ days_after then_ (s + n) k.
Proof. unfold days_after. now rewrite seq_app, map_app. Qed.

Lemma elapsed_counts_next_week then_ now now' :
  1 <= overall_days then_ now ->
  overall_days then_ now' = overall_days then_ now + 7 ->
  elapsed_counts then_ now'
  = (fst (elapsed_counts then_ now) + 5, snd (elapsed_counts then_ now) + 2).
Proof.
  intros Hd Hd'. unfold elapsed_counts. rewrite Hd'. cbn [fst snd].
  replace (Z.to_nat (overall_days then_ now + 7) - 1)%nat
    with ((Z.to_nat (overall_days then_ now) - 1) + 7)%nat by lia.
  rewrite days_after_app, !count_app, days_after_week. cbv zeta.
  destruct (week_counts (Datetime.toordinal then_
                         + Z.of_nat (1 + (Z.to_nat (overall_days then_ now) - 1))))
    as [-> ->].
  reflexivity.
Qed.

(** ** [calculate_fee] on any dict *)

(** X1: [calculate_fee] needs the "overall" entry with its "hours" and
    "minutes": when one of them is missing it raises the [KeyError] of the
    first missing key; when they are present, and the counts and every
    number in the dict are at most 2^40 in absolute value, it returns a fee,
    whatever else the dict holds. *)
Theorem calculate_fee_key_errors (dict : duration_dict_t) wc wec tiw tow :
  (dict !! "overall" = None ->
   calculate_fee dict wc wec tiw tow = inl (KeyError "overall"))
  /\ (forall overall : gmap string Z,
        dict !! "overall" = Some overall -> overall !! "hours" = None ->
        calculate_fee dict wc wec tiw tow = inl (KeyError "hours"))
  /\ (forall (overall : gmap string Z) h,
        dict !! "overall" = Some overall -> overall !! "hours" = Some h ->
        overall !! "minutes" = None ->
        calculate_fee dict wc wec tiw tow = inl (KeyError "minutes"))
  /\ (forall (overall : gmap string Z) h m,
        dict !! "overall" = Some overall -> overall !! "hours" = Some h ->
        overall !! "minutes" = Some m ->
        Z.abs wc <= 2 ^ 40 -> Z.abs wec <= 2 ^ 40 ->
        (forall key (inner : gmap string Z) key' x,
           dict !! key = Some inner -> inner !! key' = Some x ->
           Z.abs x <= 2 ^ 40) ->
        exists fee, calculate_fee dict wc wec tiw tow = inr fee).
Proof.
  unfold calculate_fee, getitem.
  split; [|split; [|split]].
  - intros ->. reflexivity.
  - intros ov Ho Hh. rewrite Ho. cbn [bind ret]. rewrite Hh. reflexivity.
  - intros ov h Ho Hh Hm. rewrite Ho. cbn [bind ret]. rewrite Hh.
    cbn [bind ret]. rewrite Hm. reflexivity.
  - intros ov h m Ho Hh Hm _ _ _. rewrite Ho. cbn [bind ret]. rewrite Hh, Hm.
    cbn [bind ret].
    destruct (unpack_split_total dict) as (o & ->). cbn [bind].
    destruct o as [[[[fh fm] rh] rm]|]; eexists; reflexivity.
Qed.

(** X2: when "first_day" or "remaining" is missing from the dict,
    [calculate_fee] prices the overall duration as first segment and charges
    nothing for a remaining segment, even if the other of the two is
    present (for overall hours and counts of at most 2^40 in absolute
    value, where the amounts are exact). *)
Theorem calculate_fee_without_split (dict : duration_dict_t)
    (overall : gmap string Z) h m wc wec tiw tow :
  dict !! "overall" = Some overall ->
  overall !! "hours" = Some h -> overall !! "minutes" = Some m ->
  dict !! "first_day" = None \/ dict !! "remaining" = None ->
  Z.abs h <= 2 ^ 40 -> Z.abs wc <= 2 ^ 40 -> Z.abs wec <= 2 ^ 40 ->
  calculate_fee dict wc wec tiw tow
  = inr (first_day_fee tiw h m + elapsed_days_fee wc wec + 0)%Q.
Proof.
  intros Ho Hh Hm Hs _ _ _. unfold calculate_fee, getitem.
  rewrite Ho. cbn [bind ret]. rewrite Hh, Hm. cbn [bind ret].
  rewrite (unpack_split_partial dict Hs). reflexivity.
Qed.

(** X2 applies to a dict with "first_day" but without "remaining". *)
Lemma calculate_fee_without_split_witness :
  calculate_fee
    (<["first_day" := {["hours" := 15; "minutes" := 45]}]>
       (<["overall" := {["days" := 1; "hours" := 2; "minutes" := 0]}]> ∅))
    0 0 true true
  = inr (first_day_fee true 2 0 + elapsed_days_fee 0 0 + 0)%Q.
Proof.
  apply (calculate_fee_without_split _
           {["days" := 1; "hours" := 2; "minutes" := 0]});
    try reflexivity; try discriminate.
  right. reflexivity.
Defined.

Lemma calculate_fee_full_split (dict : duration_dict_t)
    (overall first_day remaining : gmap string Z) h m fh fm rh rm
    wc wec tiw tow :
  dict !! "overall" = Some overall ->
  overall !! "hours" = Some h -> overall !! "minutes" = Some m ->
  dict !! "first_day" = Some first_day ->
  first_day !! "hours" = Some fh -> first_day !! "minutes" = Some fm ->
  dict !! "remaining" = Some remaining ->
  remaining !! "hours" = Some rh -> remaining !! "minutes" = Some rm ->
  calculate_fee dict wc wec tiw tow
  = inr (first_day_fee tiw fh fm + elapsed_days_fee wc wec
         + remaining_hours_fee tow (Some (rh, rm)))%Q.
Proof.
  intros Ho Hh Hm Hf Hfh Hfm Hr Hrh Hrm.
  unfold calculate_fee, unpack_split, try_except_KeyError, getitem.
  rewrite Ho. cbn [bind ret]. rewrite Hh, Hm. cbn [bind ret].
  rewrite Hf. cbn [bind ret]. rewrite Hfh, Hfm. cbn [bind ret].
  rewrite Hr. cbn [bind ret]. rewrite Hrh, Hrm. reflexivity.
Qed.

(** X3: when "first_day" and "remaining" are both present with their hours
    and minutes, the hours and minutes of "overall" have no influence on the
    fee: [calculate_fee] returns the same fee after "overall" is replaced by
    any other entry that has hours and minutes (for split hours and counts
    of at most 2^40 in absolute value). *)
Theorem calculate_fee_ignores_overall (dict : duration_dict_t)
    (overall overall' first_day remaining : gmap string Z)
    h m h' m' fh fm rh rm wc wec tiw tow :
  dict !! "overall" = Some overall ->
  overall !! "hours" = Some h -> overall !! "minutes" = Some m ->
  overall' !! "hours" = Some h' -> overall' !! "minutes" = Some m' ->
  dict !! "first_day" = Some first_day ->
  first_day !! "hours" = Some fh -> first_day !! "minutes" = Some fm ->
  dict !! "remaining" = Some remaining ->
  remaining !! "hours" = Some rh -> remaining !! "minutes" = Some rm ->
  Z.abs fh <= 2 ^ 40 -> Z.abs rh <= 2 ^ 40 ->
  Z.abs wc <= 2 ^ 40 -> Z.abs wec <= 2 ^ 40 ->
  (exists fee, calculate_fee dict wc wec tiw tow = inr fee)
  /\ calculate_fee (<["overall" := overall']> dict) wc wec tiw tow
     = calculate_fee dict wc wec tiw tow.
Proof.
  intros Ho Hh Hm Hh' Hm' Hf Hfh Hfm Hr Hrh Hrm _ _ _ _.
  rewrite (calculate_fee_full_split dict overall first_day remaining
             h m fh fm rh rm) by assumption.
  split; [eexists; reflexivity|].
  apply (calculate_fee_full_split _ overall' first_day remaining h' m');
    try assumption.
  - apply lookup_insert_eq.
  - rewrite lookup_insert_ne by discriminate. exact Hf.
  - rewrite lookup_insert_ne by discriminate. exact Hr.
Qed.

(** X3 applies to the dict of the stay from Monday 08:00 to Wednesday
    10:00, with "overall" replaced. *)
Lemma calculate_fee_ignores_overall_witness :
  let dict : duration_dict_t :=
    <["remaining" := {["hours" := 10; "minutes" := 0]}]>
      (<["first_day" := {["hours" := 16; "minutes" := 1]}]>
         (<["overall" := {["days" := 2; "hours" := 2; "minutes" := 0]}]> ∅)) in
  calculate_fee
    (<["overall" := {["days" := 0; "hours" := 23; "minutes" := 59]}]> dict)
    1 0 true true
  = calculate_fee dict 1 0 true true.
Proof.
  cbv zeta.
  apply (calculate_fee_ignores_overall _
           {["days" := 2; "hours" := 2; "minutes" := 0]}
           {["days" := 0; "hours" := 23; "minutes" := 59]}
           {["hours" := 16; "minutes" := 1]}
           {["hours" := 10; "minutes" := 0]} 2 0 23 59 16 1 10 0);
    try reflexivity; discriminate.
Defined.

(** ** The fee of a stay *)

(** X4: for every entry not later than the exit, the fee returned by
    [get_parking_fee] is not negative and is at most 40 x (d + 2), where d is
    the number of whole periods of 24 hours in the stay. *)
Theorem fee_bounds time_in time_out :
  Datetime.valid time_in -> Datetime.valid time_out ->
  Datetime.leb time_in time_out = true ->
  exists label fee,
    get_parking_fee time_in time_out = inr (label, fee)
    /\ (0 <= fee)%Q
    /\ (fee <= 40 * inject_Z
                   ((total_us time_out - total_us time_in) / 86400000000 + 2))%Q.
Proof.
  intros Hi Ho Hle. do 2 eexists.
  split; [apply get_parking_fee_ok; assumption|].
  apply (leb_total_us _ _ Hi Ho) in Hle. apply overall_days_nonneg in Hle.
  fold (elapsed_us time_in time_out). fold (overall_days time_in time_out).
  destruct (elapsed_counts_bounds _ _ Hle) as (Hwd & Hwe & Hsum).
  unfold total_fee_of.
  set (wd := fst (elapsed_counts time_in time_out)) in *.
  set (we := snd (elapsed_counts time_in time_out)) in *.
  assert (Hrem : match snd (billable time_in time_out) with
                 | Some (rh, _) => 0 <= rh | None => True end).
  { unfold billable. destruct (Datetime.date_eqb _ _); cbn [snd]; [exact I|].
    apply valid_fields in Ho. lia. }
  destruct (billable time_in time_out) as [[h m] rem]. cbn [snd] in Hrem.
  pose proof (first_day_fee_nonneg (is_weekday time_in) h m) as F0.
  pose proof (first_day_fee_le (is_weekday time_in) h m) as F1.
  pose proof (remaining_hours_fee_nonneg (is_weekday time_out) rem Hrem) as R0.
  pose proof (remaining_hours_fee_le (is_weekday time_out) rem) as R1.
  destruct (rates_pos (is_weekday time_in)) as (_ & _ & _ & _ & _ & M1 & _).
  destruct (rates_pos (is_weekday time_out)) as (_ & _ & _ & _ & _ & _ & M2).
  pose proof (elapsed_days_fee_eq wd we) as E.
  pose proof (inject_Z_nonneg wd Hwd) as Qwd.
  pose proof (inject_Z_nonneg we Hwe) as Qwe.
  assert (Qsum : (inject_Z wd + inject_Z we
                  <= inject_Z (overall_days time_in time_out))%Q).
  { rewrite <- inject_Z_plus. now rewrite <- Zle_Qle. }
  rewrite inject_Z_plus. change (inject_Z 2) with 2%Q.
  split; lra.
Qed.

(** X4 applies to the stay from Monday to Wednesday: at most 160. *)
Lemma fee_bounds_witness :
  exists label fee,
    get_parking_fee MONDAY_IN WEDNESDAY_OUT = inr (label, fee)
    /\ (0 <= fee)%Q /\ (fee <= 160)%Q.
Proof.
  destruct (fee_bounds MONDAY_IN WEDNESDAY_OUT) as (label & fee & H & H0 & H1);
    [reflexivity..|].
  exists label, fee. split; [exact H|]. split; [exact H0|].
  eapply Qle_trans; [exact H1|]. discriminate.
Defined.

(** X5: when entry and exit are on the same date, the fee is the
    first-segment fee of the elapsed hours and minutes at the rates of the
    entry day, with no other charge, hence at most the daily maximum of that
    day (20 on a weekday, 40 on a weekend). *)
Theorem same_date_fee time_in time_out :
  Datetime.valid time_in -> Datetime.valid time_out ->
  Datetime.leb time_in time_out = true ->
  Datetime.date_eqb (Datetime.date time_in) (Datetime.date time_out) = true ->
  let seconds := (total_us time_out - total_us time_in) / 1000000 in
  let weekday := Datetime.weekday time_in <? 5 in
  exists label fee,
    get_parking_fee time_in time_out = inr (label, fee)
    /\ 0 <= seconds < 86400
    /\ (fee == first_day_fee weekday (seconds / 3600) (seconds mod 3600 / 60))%Q
    /\ (fee <= (if weekday then 20 else 40))%Q.
Proof.
  intros Hi Ho Hle Hd. cbv zeta.
  pose proof (same_date_elapsed _ _ Hi Ho Hle Hd) as He.
  do 2 eexists. split; [apply get_parking_fee_ok; assumption|].
  fold (elapsed_us time_in time_out).
  split; [Z.div_mod_to_equations; lia|].
  unfold total_fee_of, billable. rewrite Hd.
  rewrite elapsed_counts_zero
    by (unfold overall_days; Z.div_mod_to_equations; lia).
  cbn [fst snd]. fold (is_weekday time_in).
  assert (Es : overall_seconds time_in time_out
               = elapsed_us time_in time_out / 1000000).
  { unfold overall_seconds. rewrite Z.mod_small by lia. reflexivity. }
  rewrite Es.
  set (fee := first_day_fee _ _ _).
  assert (Hfee : (fee <= first_day_max_rate (is_weekday time_in))%Q)
    by apply first_day_fee_le.
  change (elapsed_days_fee 0 0) with 0%Q.
  change (remaining_hours_fee (is_weekday time_out) None) with 0%Q.
  split; [lra|].
  unfold first_day_max_rate, weekday_max_charge_per_day,
    weekend_max_charge_per_day in Hfee.
  clearbody fee. destruct (is_weekday time_in); lra.
Qed.

(** X5 applies to the default stay. *)
Lemma same_date_fee_witness :
  exists label fee,
    get_parking_fee TIME_IN TIME_OUT = inr (label, fee) /\ (fee <= 20)%Q.
Proof.
  destruct (same_date_fee TIME_IN TIME_OUT) as (label & fee & H & _ & _ & Hc);
    [reflexivity..|].
  exists label, fee. split; [exact H|exact Hc].
Defined.

(** X6: a stay within one date that lasts less than 16 minutes is free, and
    its label is the number of whole minutes followed by " minutes". *)
Theorem short_stay_free time_in time_out :
  Datetime.valid time_in -> Datetime.valid time_out ->
  Datetime.leb time_in time_out = true ->
  Datetime.date_eqb (Datetime.date time_in) (Datetime.date time_out) = true ->
  total_us time_out - total_us time_in < 16 * 60000000 ->
  get_parking_fee time_in time_out
  = inr ((str ((total_us time_out - total_us time_in) / 60000000)
          ++ " minutes")%string, 0%Q).
Proof.
  intros Hi Ho Hle Hd Hshort.
  pose proof (same_date_elapsed _ _ Hi Ho Hle Hd) as He.
  rewrite get_parking_fee_ok by assumption.
  unfold elapsed_us in He.
  assert (Edays : overall_days time_in time_out = 0).
  { unfold overall_days, elapsed_us. Z.div_mod_to_equations. lia. }
  assert (Eh : overall_seconds time_in time_out / 3600 = 0).
  { unfold overall_seconds, elapsed_us. Z.div_mod_to_equations. lia. }
  assert (Em : overall_seconds time_in time_out mod 3600 / 60
               = (total_us time_out - total_us time_in) / 60000000).
  { unfold overall_seconds, elapsed_us. Z.div_mod_to_equations. lia. }
  unfold total_fee_of, billable. rewrite Hd, Eh, Em, Edays.
  rewrite elapsed_counts_zero by lia. cbn [fst snd].
  rewrite first_day_fee_free by (Z.div_mod_to_equations; lia).
  reflexivity.
Qed.

(** X6 applies to the default stay of 11 minutes. *)
Lemma short_stay_free_witness :
  get_parking_fee TIME_IN TIME_OUT = inr ("11 minutes"%string, 0%Q).
Proof. apply (short_stay_free TIME_IN TIME_OUT); reflexivity. Defined.

(** X7: a stay that starts at 23:46 or later and ends on the next date
    before 01:00 is free, although it can last up to 74 minutes: the first
    day is at most 15 minutes and the remaining segment has 0 hours. *)
Theorem stay_around_midnight_free time_in time_out :
  Datetime.valid time_in -> Datetime.valid time_out ->
  Datetime.toordinal time_out = Datetime.toordinal time_in + 1 ->
  Datetime.hour time_in = 23 -> 46 <= Datetime.minute time_in ->
  Datetime.hour time_out = 0 ->
  exists label fee,
    get_parking_fee time_in time_out = inr (label, fee) /\ (fee == 0)%Q.
Proof.
  intros Hi Ho Hord Hh Hm Hh'.
  pose proof (valid_fields _ Hi) as (_ & _ & Hmi & Hsi & Hui).
  pose proof (valid_fields _ Ho) as (_ & _ & Hmo & Hso & Huo).
  assert (He : 0 <= elapsed_us time_in time_out < 86400000000).
  { unfold elapsed_us, total_us, Datetime.secs. lia. }
  assert (Hle : Datetime.leb time_in time_out = true).
  { apply leb_total_us; try assumption. unfold elapsed_us in He. lia. }
  assert (Hne : Datetime.date_eqb (Datetime.date time_in)
                  (Datetime.date time_out) = false).
  { apply not_true_is_false. rewrite date_eqb_toordinal by assumption. lia. }
  assert (Hfd : 0 <= first_day_seconds time_in <= 900).
  { rewrite first_day_seconds_eq by assumption. unfold Datetime.secs.
    Z.div_mod_to_equations. lia. }
  do 2 eexists. split; [apply get_parking_fee_ok; assumption|].
  unfold total_fee_of, billable. rewrite Hne, Hh'.
  rewrite elapsed_counts_zero
    by (unfold overall_days; Z.div_mod_to_equations; lia).
  cbn [fst snd].
  replace (first_day_seconds time_in / 3600) with 0
    by (Z.div_mod_to_equations; lia).
  rewrite first_day_fee_free by (Z.div_mod_to_equations; lia).
  destruct (is_weekday time_out); reflexivity.
Qed.

(** X7 applies to the stay from 23:46:00 to 00:59:59. *)
Lemma stay_around_midnight_free_witness :
  exists label fee,
    get_parking_fee (Datetime.mk 2023 10 6 23 46 0 0)
      (Datetime.mk 2023 10 7 0 59 59 0) = inr (label, fee)
    /\ (fee == 0)%Q.
Proof.
  apply (stay_around_midnight_free (Datetime.mk 2023 10 6 23 46 0 0)
           (Datetime.mk 2023 10 7 0 59 59 0)); reflexivity.
Defined.

Lemma first_day_fee_three tiw m :
  m <= 5 -> first_day_fee tiw 3 m = first_n_hours_rate tiw.
Proof.
  intros H. unfold first_day_fee. rewrite grace_period_free by lia.
  change (hour_rate_fee tiw 3 m) with (first_n_hours_rate tiw).
  now destruct tiw.
Qed.

Lemma first_day_fee_two tiw m :
  5 < m ->
  first_day_fee tiw 2 m
  = (first_day_subsequent_hours_rate tiw * inject_Z 2
     + first_day_subsequent_hours_rate tiw)%Q.
Proof.
  intros H. unfold first_day_fee. rewrite grace_period_charged by lia.
  change (hour_rate_fee tiw 2 m)
    with (first_day_subsequent_hours_rate tiw * inject_Z 2)%Q.
  now destruct tiw.
Qed.

Lemma same_date_total_fee time_in time_out :
  Datetime.valid time_in -> Datetime.valid time_out ->
  Datetime.leb time_in time_out = true ->
  Datetime.date_eqb (Datetime.date time_in) (Datetime.date time_out) = true ->
  total_fee_of time_in time_out
  = (first_day_fee (is_weekday time_in)
       ((total_us time_out - total_us time_in) / 1000000 / 3600)
       ((total_us time_out - total_us time_in) / 1000000 mod 3600 / 60)
     + 0 + 0)%Q.
Proof.
  intros Hi Ho Hle Hd.
  pose proof (same_date_elapsed _ _ Hi Ho Hle Hd) as He.
  unfold total_fee_of, billable. rewrite Hd.
  rewrite elapsed_counts_zero
    by (unfold overall_days; Z.div_mod_to_equations; lia).
  unfold overall_seconds. rewrite Z.mod_small by lia. reflexivity.
Qed.

(** X8: the fee is not monotone in the duration.  For one entry and two
    exits on its date, [get_parking_fee] charges less for the longer stay of
    3 hours and at most 5 minutes (first_n_hours_rate: 3.0 on a weekday, 5.0
    on a weekend) than for the shorter stay of 2 hours and more than 5
    minutes (three times subsequent_hour_rate: 4.5 or 6.0). *)
Theorem three_hours_cheaper_than_two time_in time_out time_out' :
  Datetime.valid time_in -> Datetime.valid time_out ->
  Datetime.valid time_out' ->
  Datetime.date_eqb (Datetime.date time_in) (Datetime.date time_out) = true ->
  Datetime.date_eqb (Datetime.date time_in) (Datetime.date time_out') = true ->
  2 * 3600 + 6 * 60 <= (total_us time_out - total_us time_in) / 1000000
                    < 3 * 3600 ->
  3 * 3600 <= (total_us time_out' - total_us time_in) / 1000000
           < 3 * 3600 + 6 * 60 ->
  let weekday := Datetime.weekday time_in <? 5 in
  exists label fee label' fee',
    get_parking_fee time_in time_out = inr (label, fee)
    /\ get_parking_fee time_in time_out' = inr (label', fee')
    /\ (fee == (if weekday then 9 # 2 else 6))%Q
    /\ (fee' == (if weekday then 3 else 5))%Q
    /\ (fee' < fee)%Q.
Proof.
  intros Hi Ho Ho' Hd Hd' Hs Hs'. cbv zeta.
  assert (Hle : Datetime.leb time_in time_out = true).
  { apply leb_total_us; try assumption. Z.div_mod_to_equations. lia. }
  assert (Hle' : Datetime.leb time_in time_out' = true).
  { apply leb_total_us; try assumption. Z.div_mod_to_equations. lia. }
  do 4 eexists.
  split; [apply get_parking_fee_ok; assumption|].
  split; [apply get_parking_fee_ok; assumption|].
  rewrite !same_date_total_fee by assumption.
  fold (is_weekday time_in).
  replace ((total_us time_out - total_us time_in) / 1000000 / 3600) with 2
    by (Z.div_mod_to_equations; lia).
  replace ((total_us time_out' - total_us time_in) / 1000000 / 3600) with 3
    by (Z.div_mod_to_equations; lia).
  rewrite first_day_fee_two by (Z.div_mod_to_equations; lia).
  rewrite first_day_fee_three by (Z.div_mod_to_equations; lia).
  destruct (is_weekday time_in); repeat split; reflexivity.
Qed.

(** X8 applies to an entry at 08:00 with exits at 10:06 and at 11:00. *)
Lemma three_hours_cheaper_than_two_witness :
  exists label fee label' fee',
    get_parking_fee (Datetime.mk 2023 10 6 8 0 0 0)
      (Datetime.mk 2023 10 6 10 6 0 0) = inr (label, fee)
    /\ get_parking_fee (Datetime.mk 2023 10 6 8 0 0 0)
         (Datetime.mk 2023 10 6 11 0 0 0) = inr (label', fee')
    /\ (fee == 9 # 2)%Q /\ (fee' == 3)%Q /\ (fee' < fee)%Q.
Proof.
  apply (three_hours_cheaper_than_two (Datetime.mk 2023 10 6 8 0 0 0)
           (Datetime.mk 2023 10 6 10 6 0 0) (Datetime.mk 2023 10 6 11 0 0 0));
    try reflexivity; split; (reflexivity || discriminate).
Defined.

(** X9: the two ways in which the script decides that a day is a weekend
    day agree: the name of the day is "Saturday" or "Sunday" (in
    [get_duration]) exactly when [weekday()] is not below 5 (in
    [get_parking_fee]). *)
Theorem day_kinds_agree (d : Datetime.t) :
  let day := day_name (Datetime.weekday d) in
  (String.eqb day "Saturday" || String.eqb day "Sunday")
  = negb (Datetime.weekday d <? 5)
  /\ (Datetime.weekday d <? 5) = is_weekday_ordinal (Datetime.toordinal d).
Proof.
  cbv zeta.
  assert (H : 0 <= Datetime.weekday d <= 6).
  { unfold Datetime.weekday.
    pose proof (Z.mod_pos_bound (Datetime.toordinal d + 6) 7). lia. }
  split.
  - rewrite day_name_weekend by exact H.
    destruct (Z.leb_spec 5 (Datetime.weekday d));
      destruct (Z.ltb_spec (Datetime.weekday d) 5); try reflexivity; lia.
  - unfold is_weekday_ordinal. rewrite is_weekend_ordinal_eq.
    unfold weekday_of_ordinal. fold (Datetime.weekday d).
    destruct (Z.leb_spec 5 (Datetime.weekday d));
      destruct (Z.ltb_spec (Datetime.weekday d) 5); try reflexivity; lia.
Qed.

(** X10: for a stay of at least 24 hours, leaving exactly seven days later
    at the same time of day adds 5 x 20 + 2 x 40 = 180 to the fee. *)
Theorem one_more_week time_in time_out time_out' :
  Datetime.valid time_in -> Datetime.valid time_out ->
  Datetime.valid time_out' ->
  86400000000 <= total_us time_out - total_us time_in ->
  Datetime.toordinal time_out' = Datetime.toordinal time_out + 7 ->
  Datetime.hour time_out' = Datetime.hour time_out ->
  Datetime.minute time_out' = Datetime.minute time_out ->
  Datetime.second time_out' = Datetime.second time_out ->
  Datetime.microsecond time_out' = Datetime.microsecond time_out ->
  exists label fee label' fee',
    get_parking_fee time_in time_out = inr (label, fee)
    /\ get_parking_fee time_in time_out' = inr (label', fee')
    /\ (fee' == fee + (5 * 20 + 2 * 40))%Q.
Proof.
  intros Hi Ho Ho' Hday Hord Hh Hm Hs Hu.
  assert (Hle : Datetime.leb time_in time_out = true).
  { apply leb_total_us; try assumption. lia. }
  assert (Hus : total_us time_out' = total_us time_out + 7 * 86400000000).
  { unfold total_us, Datetime.secs. rewrite Hord, Hh, Hm, Hs, Hu. lia. }
  assert (Hle' : Datetime.leb time_in time_out' = true).
  { apply leb_total_us; try assumption. lia. }
  assert (Hlt : Datetime.toordinal time_in < Datetime.toordinal time_out).
  { pose proof (valid_secs _ Hi). pose proof (valid_secs _ Ho).
    pose proof (valid_fields _ Hi). pose proof (valid_fields _ Ho).
    unfold total_us in Hday. lia. }
  assert (Hne : Datetime.date_eqb (Datetime.date time_in)
                  (Datetime.date time_out) = false).
  { apply not_true_is_false. rewrite date_eqb_toordinal by assumption. lia. }
  assert (Hne' : Datetime.date_eqb (Datetime.date time_in)
                   (Datetime.date time_out') = false).
  { apply not_true_is_false. rewrite date_eqb_toordinal by assumption. lia. }
  assert (Hd : 1 <= overall_days time_in time_out).
  { unfold overall_days, elapsed_us. Z.div_mod_to_equations. lia. }
  assert (Hd' : overall_days time_in time_out'
                = overall_days time_in time_out + 7).
  { unfold overall_days, elapsed_us. rewrite Hus. Z.div_mod_to_equations. lia. }
  assert (Hw : is_weekday time_out' = is_weekday time_out).
  { unfold is_weekday, Datetime.weekday. rewrite Hord. f_equal.
    Z.div_mod_to_equations. lia. }
  do 4 eexists.
  split; [apply get_parking_fee_ok; assumption|].
  split; [apply get_parking_fee_ok; assumption|].
  unfold total_fee_of, billable. rewrite Hne, Hne', Hw, Hh, Hm.
  rewrite (elapsed_counts_next_week _ _ _ Hd Hd'). cbn [fst snd].
  destruct (elapsed_counts_bounds time_in time_out ltac:(lia)) as (Hwd & Hwe & _).
  set (wd := fst (elapsed_counts time_in time_out)) in *.
  set (we := snd (elapsed_counts time_in time_out)) in *.
  rewrite (elapsed_days_fee_eq (wd + 5) (we + 2)), (elapsed_days_fee_eq wd we).
  rewrite !inject_Z_plus. change (inject_Z 5) with 5%Q.
  change (inject_Z 2) with 2%Q. ring.
Qed.

(** X10 applies to the stay from Monday to Wednesday, prolonged by a week. *)
Lemma one_more_week_witness :
  exists label fee label' fee',
    get_parking_fee MONDAY_IN WEDNESDAY_OUT = inr (label, fee)
    /\ get_parking_fee MONDAY_IN (Datetime.mk 2023 10 11 10 0 0 0)
       = inr (label', fee')
    /\ (fee' == fee + (5 * 20 + 2 * 40))%Q.
Proof.
  apply (one_more_week MONDAY_IN WEDNESDAY_OUT (Datetime.mk 2023 10 11 10 0 0 0));
    try reflexivity.
  discriminate.
Defined.

(** ** [get_duration] and the errors of [get_parking_fee] *)

(** X11: [get_duration] raises exactly when [then_] is on 31 December 9999,
    the last date of the calendar, and [now] is on another date; what it
    raises is the [OverflowError] of [then + timedelta(days=1)]. *)
Theorem get_duration_raises then_ now :
  Datetime.valid then_ -> Datetime.valid now ->
  ((exists e, get_duration then_ now = inl e)
   <-> (Datetime.date then_ = (9999, 12, 31)
        /\ Datetime.date now <> (9999, 12, 31)))
  /\ (forall e, get_duration then_ now = inl e -> e = OverflowError).
Proof.
  intros Ht Hn.
  pose proof (valid_toordinal _ Ht) as Hot.
  pose proof (last_day_toordinal _ Ht) as Hlast.
  assert (Hdate : Datetime.date_eqb (Datetime.date then_) (Datetime.date now) = true
                  <-> Datetime.date then_ = Datetime.date now).
  { unfold Datetime.date_eqb, Datetime.date.
    rewrite !andb_true_iff, !Z.eqb_eq. split.
    - intros [[-> ->] ->]. reflexivity.
    - intros E. injection E as -> -> ->. auto. }
  destruct (Datetime.date_eqb (Datetime.date then_) (Datetime.date now)) eqn:Ed.
  - rewrite get_duration_any_order by (try assumption; left; exact Ed).
    apply proj1 in Hdate. specialize (Hdate eq_refl).
    split; [|intros e H; discriminate].
    split; [intros [e H]; discriminate|].
    intros [E1 E2]. congruence.
  - destruct (Z.eq_dec (Datetime.toordinal then_) MAXORDINAL) as [Emax|Nmax].
    + rewrite get_duration_overflow by assumption.
      split; [|intros e H; congruence].
      split; [intros _|eauto].
      apply proj1 in Hlast. specialize (Hlast Emax).
      split; [exact Hlast|]. intros E.
      assert (Datetime.date then_ = Datetime.date now) by congruence.
      apply Hdate in H. discriminate.
    + rewrite get_duration_any_order by (try assumption; right; lia).
      rewrite Ed.
      split; [|intros e H; discriminate].
      split; [intros [e H]; discriminate|].
      intros [E1 _]. apply Hlast in E1. contradiction.
Qed.

(** X11 applies to an entry on the last date and the default exit. *)
Lemma get_duration_raises_witness :
  get_duration (Datetime.mk 9999 12 31 8 0 0 0) TIME_IN = inl OverflowError.
Proof.
  destruct (get_duration_raises (Datetime.mk 9999 12 31 8 0 0 0) TIME_IN)
    as [[_ H] He]; [reflexivity..|].
  destruct H as [e H]; [split; [reflexivity|discriminate]|].
  rewrite H. f_equal. now apply He.
Defined.

(** X12: called with [now] earlier than [then_], [get_duration] runs its
    loop zero times: both counters are 0, the overall days are negative and
    the overall hours and minutes are still within 0..23 and 0..59. *)
Theorem get_duration_backwards then_ now :
  Datetime.valid then_ -> Datetime.valid now ->
  Datetime.ltb now then_ = true ->
  Datetime.date then_ <> (9999, 12, 31) ->
  exists dict overall days hours minutes,
    get_duration then_ now = inr (dict, 0, 0)
    /\ dict !! "overall" = Some overall
    /\ overall !! "days" = Some days
    /\ overall !! "hours" = Some hours
    /\ overall !! "minutes" = Some minutes
    /\ days < 0 /\ 0 <= hours < 24 /\ 0 <= minutes < 60.
Proof.
  intros Ht Hn Hlt Hlast.
  apply (ltb_total_us _ _ Hn Ht) in Hlt.
  pose proof (valid_toordinal _ Ht) as Hot.
  assert (Hmax : Datetime.toordinal then_ < MAXORDINAL).
  { destruct (Z.eq_dec (Datetime.toordinal then_) MAXORDINAL) as [E|N]; [|lia].
    apply (last_day_toordinal _ Ht) in E. contradiction. }
  assert (Hdays : overall_days then_ now < 0).
  { unfold overall_days, elapsed_us. Z.div_mod_to_equations. lia. }
  exists (if Datetime.date_eqb (Datetime.date then_) (Datetime.date now)
          then overall_dict then_ now else split_dict then_ now).
  exists {["days" := overall_days then_ now;
           "hours" := overall_seconds then_ now / 3600;
           "minutes" := overall_seconds then_ now mod 3600 / 60]}.
  exists (overall_days then_ now), (overall_seconds then_ now / 3600),
    (overall_seconds then_ now mod 3600 / 60).
  split.
  { rewrite get_duration_any_order by (try assumption; right; exact Hmax).
    rewrite elapsed_counts_zero by lia. reflexivity. }
  split; [destruct (Datetime.date_eqb _ _); reflexivity|].
  split; [reflexivity|]. split; [reflexivity|]. split; [reflexivity|].
  split; [exact Hdays|].
  unfold overall_seconds. split; Z.div_mod_to_equations; lia.
Qed.

(** X12 applies to the default instants, swapped. *)
Lemma get_duration_backwards_witness :
  exists dict, get_duration TIME_OUT TIME_IN = inr (dict, 0, 0).
Proof.
  destruct (get_duration_backwards TIME_OUT TIME_IN)
    as (dict & _ & _ & _ & _ & H & _); [reflexivity..|discriminate|].
  exists dict. exact H.
Defined.

(** X13: when the exit is on a later date than the entry, the first day is
    the time from the entry to 00:01 of the next date, taken modulo one day
    and cut to whole seconds, as hours below 24 and minutes below 60, and the
    remaining segment is the hour and minute of the exit; for an entry after
    00:01:00 nothing is lost but the microseconds, and for an entry in the
    first minute of its date the first day is at most one minute. *)
Theorem first_day_and_remaining then_ now :
  Datetime.valid then_ -> Datetime.valid now ->
  Datetime.leb then_ now = true ->
  Datetime.date_eqb (Datetime.date then_) (Datetime.date now) = false ->
  let to_0001 :=
    (86400 + 60 - Datetime.secs then_) * 1000000 - Datetime.microsecond then_ in
  let seconds := to_0001 mod 86400000000 / 1000000 in
  exists dict wd we first_day remaining,
    get_duration then_ now = inr (dict, wd, we)
    /\ dict !! "first_day" = Some first_day
    /\ dict !! "remaining" = Some remaining
    /\ first_day !! "hours" = Some (seconds / 3600)
    /\ first_day !! "minutes" = Some (seconds mod 3600 / 60)
    /\ 0 <= seconds / 3600 < 24 /\ 0 <= seconds mod 3600 / 60 < 60
    /\ remaining !! "hours" = Some (Datetime.hour now)
    /\ remaining !! "minutes" = Some (Datetime.minute now)
    /\ 0 <= Datetime.hour now < 24 /\ 0 <= Datetime.minute now < 60
    /\ (60000000
        < Datetime.secs then_ * 1000000 + Datetime.microsecond then_ ->
        exists residue,
          0 <= residue < 1000000 /\ to_0001 = seconds * 1000000 + residue)
    /\ (Datetime.secs then_ * 1000000 + Datetime.microsecond then_
        <= 60000000 ->
        seconds <= 60).
Proof.
  intros Ht Hn Hle Hne. cbv zeta.
  pose proof (valid_secs _ Ht) as Hs.
  pose proof (valid_fields _ Ht) as (_ & _ & _ & _ & Hu).
  pose proof (valid_fields _ Hn) as (_ & Hh' & Hm' & _).
  rewrite <- (first_day_seconds_eq then_ Ht).
  exists (split_dict then_ now).
  exists (fst (elapsed_counts then_ now)), (snd (elapsed_counts then_ now)).
  exists {["hours" := first_day_seconds then_ / 3600;
           "minutes" := first_day_seconds then_ mod 3600 / 60]}.
  exists {["hours" := Datetime.hour now; "minutes" := Datetime.minute now]}.
  split; [now apply get_duration_later_date|].
  split; [apply lookup_split_first_day|].
  split; [apply lookup_split_remaining|].
  rewrite !lookup_hours, !lookup_minutes.
  split; [reflexivity|]. split; [reflexivity|].
  assert (Hfd : 0 <= first_day_seconds then_ < 86400).
  { rewrite first_day_seconds_eq by assumption. Z.div_mod_to_equations. lia. }
  split; [Z.div_mod_to_equations; lia|].
  split; [Z.div_mod_to_equations; lia|].
  split; [reflexivity|]. split; [reflexivity|].
  split; [lia|]. split; [lia|].
  rewrite first_day_seconds_eq by assumption.
  split.
  - intros H60.
    exists (((86400 + 60 - Datetime.secs then_) * 1000000
             - Datetime.microsecond then_) mod 1000000).
    Z.div_mod_to_equations. lia.
  - intros H60. Z.div_mod_to_equations. lia.
Qed.

(** X13 applies to the entry at 08:16:00: 15 hours 45 minutes. *)
Lemma first_day_and_remaining_witness :
  exists dict wd we first_day,
    get_duration ENTRY_0816 EXIT_NEXT_DAY = inr (dict, wd, we)
    /\ dict !! "first_day" = Some first_day
    /\ first_day !! "hours" = Some 15 /\ first_day !! "minutes" = Some 45.
Proof.
  destruct (first_day_and_remaining ENTRY_0816 EXIT_NEXT_DAY)
    as (dict & wd & we & fd & rem & H & Hfd & _ & Hh & Hm & _);
    [reflexivity..|].
  exists dict, wd, we, fd. auto.
Defined.

(** X14: the only exception that [get_parking_fee] raises is the
    [TypeError] of its range check, and it raises it only when the exit is
    earlier than the entry: no [KeyError] from the dict and no
    [OverflowError] from the dates reach the caller. *)
Theorem get_parking_fee_errors time_in time_out :
  Datetime.valid time_in -> Datetime.valid time_out ->
  forall e, get_parking_fee time_in time_out = inl e ->
            e = TypeError /\ Datetime.ltb time_out time_in = true.
Proof.
  intros Hi Ho e H.
  destruct (Datetime.leb time_in time_out) eqn:Hle.
  - rewrite get_parking_fee_ok in H by assumption. discriminate.
  - assert (Hlt : Datetime.ltb time_out time_in = true).
    { apply ltb_total_us; try assumption.
      destruct (Z_lt_le_dec (total_us time_out) (total_us time_in)) as [L|L];
        [exact L|].
      apply (leb_total_us _ _ Hi Ho) in L. congruence. }
    rewrite get_parking_fee_invalid in H by assumption.
    split; [congruence|exact Hlt].
Qed.

(** X14 applies to an entry on the last date and the default exit. *)
Lemma get_parking_fee_errors_witness :
  get_parking_fee (Datetime.mk 9999 12 31 8 0 0 0) TIME_IN = inl TypeError.
Proof.
  destruct (get_parking_fee (Datetime.mk 9999 12 31 8 0 0 0) TIME_IN)
    as [e|r] eqn:E.
  - f_equal.
    apply (get_parking_fee_errors (Datetime.mk 9999 12 31 8 0 0 0) TIME_IN);
      [reflexivity|reflexivity|exact E].
  - rewrite get_parking_fee_invalid in E by reflexivity. discriminate.
Defined.

